(** * AuDiX Admin: the lifecycle manager, the metrics window and the gatekeeper

    A shallow embedding of [admin_db_pg.js] (the credential and lifecycle
    manager), [db_pg.js] (the schema the manager writes to) and [server.js]
    (routes, request-rate window, WebSocket upgrade, snapshot proxy).

    Conventions of the embedding:
    - a JavaScript number holding a timestamp, a count or a number of
      minutes is the integer it holds, a [Z], and arithmetic on such numbers
      rounds to the nearest double; a number that only serves as the
      parameter of a query, an id, is the integer whose decimal the runtime
      sends; a [BIGINT] parameter outside the range of the type makes the
      query throw;
    - a JavaScript string is a [string]; one character stands for one code
      unit below 256, and the case and white space functions are those of
      the runtime on these code units;
    - a table with a primary key is a [gmap] from the key to the other
      columns, a table read in insertion order is a list;
    - every [await query(...)] is one function on the store, and a manager
      operation is the sequential composition of its statements. *)

From Stdlib Require Import ZArith Lia Bool Ascii String List DecimalString Sorted.
From stdpp Require Import base option gmap strings list.
Import ListNotations.

Local Open Scope Z_scope.

(** ** The store: [migrate] in db_pg.js *)

(** [flat_requests.status]: the three values the code writes. *)
Inductive RequestStatus := PENDING | APPROVED | REJECTED.

(** [flats.status]: the two values the code writes. *)
Inductive FlatStatus := ACTIVE | DISABLED.

#[global] Instance RequestStatus_eq_dec : EqDecision RequestStatus.
Proof. solve_decision. Defined.

#[global] Instance FlatStatus_eq_dec : EqDecision FlatStatus.
Proof. solve_decision. Defined.

(** A row of [flat_requests], without its primary key [id]. *)
Module FlatRequest.
Record t := mk {
  flat_id : string;
  name : string;
  note : string;
  status : RequestStatus;
  created_at : Z;
  updated_at : Z
}.

Definition set_status (s : RequestStatus) (now : Z) (r : t) : t :=
  mk (flat_id r) (name r) (note r) s (created_at r) now.
End FlatRequest.

(** A row of [flats], without its primary key [flat_id]. *)
Module Flat.
Record t := mk {
  status : FlatStatus;
  pin_hash : option string;
  password_hash : option string;
  strike_count : Z;
  ban_until : option Z;
  requires_admin_revoke : bool;
  created_at : Z;
  updated_at : Z;
  last_login_at : option Z
}.

(** [INSERT INTO flats (flat_id, status, created_at, updated_at)]: the
    columns the statement leaves out take the defaults of the schema. *)
Definition inserted (s : FlatStatus) (now : Z) : t :=
  mk s None None 0 None false now now None.

(** [SET status = s, updated_at = now] *)
Definition set_status (s : FlatStatus) (now : Z) (f : t) : t :=
  mk s (pin_hash f) (password_hash f) (strike_count f) (ban_until f)
     (requires_admin_revoke f) (created_at f) now (last_login_at f).

(** [SET pin_hash = NULL, updated_at = now] *)
Definition clear_pin (now : Z) (f : t) : t :=
  mk (status f) None (password_hash f) (strike_count f) (ban_until f)
     (requires_admin_revoke f) (created_at f) now (last_login_at f).

(** [SET ban_until = NULL, requires_admin_revoke = FALSE, updated_at = now] *)
Definition clear_ban (now : Z) (f : t) : t :=
  mk (status f) (pin_hash f) (password_hash f) (strike_count f) None
     false (created_at f) now (last_login_at f).
End Flat.

(** A row of [setup_codes]. *)
Module SetupCode.
Record t := mk {
  id : Z;
  flat_id : string;
  code_hash : string;
  expires_at : Z;
  used_at : option Z;
  created_at : Z
}.
End SetupCode.

(** A row of [admin_audit]. *)
Module AdminAudit.
Record t := mk {
  id : Z;
  action : string;
  meta_json : option string;
  created_at : Z
}.
End AdminAudit.

(** The four relations, and the two [BIGSERIAL] counters the manager
    advances. *)
Record DB := mkDB {
  flat_requests : gmap Z FlatRequest.t;
  flat_requests_seq : Z;
  flats : gmap string Flat.t;
  setup_codes : list SetupCode.t;
  setup_codes_seq : Z;
  admin_audit : list AdminAudit.t
}.

Definition with_flat_requests (rs : gmap Z FlatRequest.t) (seq : Z) (db : DB) : DB :=
  mkDB rs seq (flats db) (setup_codes db) (setup_codes_seq db) (admin_audit db).

Definition with_flats (fs : gmap string Flat.t) (db : DB) : DB :=
  mkDB (flat_requests db) (flat_requests_seq db) fs (setup_codes db)
       (setup_codes_seq db) (admin_audit db).

Definition with_setup_codes (cs : list SetupCode.t) (seq : Z) (db : DB) : DB :=
  mkDB (flat_requests db) (flat_requests_seq db) (flats db) cs seq (admin_audit db).

(** ** The statements the manager issues *)

(** [INSERT INTO flat_requests (...) VALUES ($1,$2,$3,'PENDING',$4,$4) RETURNING id] *)
Definition insert_flat_request (flat_id name note : string) (now : Z) (db : DB) : Z * DB :=
  let id := flat_requests_seq db in
  (id, with_flat_requests
         (<[id := FlatRequest.mk flat_id name note PENDING now now]> (flat_requests db))
         (id + 1) db).

(** What makes a query throw: a number sent for a [BIGINT] that the type
    cannot hold, or a text with the code unit 0, which the server refuses. *)
Inductive QueryError := NotABigint | InvalidByteSequence.

(** The outcome of a [SELECT] by key, read through [rows[0]]. *)
Inductive Selected (A : Type) :=
| Row (a : A)
| NoRow
| QueryFailed (e : QueryError).
Arguments Row {A} a.
Arguments NoRow {A}.
Arguments QueryFailed {A} e.

(** The range of [BIGINT]. *)
Definition in_bigint (z : Z) : bool := (- 2 ^ 63 <=? z) && (z <? 2 ^ 63).

(** The text contains the code unit 0. *)
Fixpoint has_NUL (s : string) : bool :=
  match s with
  | EmptyString => false
  | String c s' => Ascii.eqb c zero || has_NUL s'
  end.

(** [SELECT * FROM flat_requests WHERE id = $1], then [rows[0]]. No key of
    the table lies outside [BIGINT]; for such an [id] the comparison is
    never made, the query throws. *)
Definition select_flat_request (id : Z) (db : DB) : Selected FlatRequest.t :=
  match flat_requests db !! id with
  | Some r => Row r
  | None => if in_bigint id then NoRow else QueryFailed NotABigint
  end.

(** [INSERT INTO flats ... ON CONFLICT (flat_id) DO UPDATE SET status='ACTIVE', updated_at=$2] *)
Definition upsert_flat_active (flat_id : string) (now : Z) (db : DB) : DB :=
  match flats db !! flat_id with
  | None => with_flats (<[flat_id := Flat.inserted ACTIVE now]> (flats db)) db
  | Some f => with_flats (<[flat_id := Flat.set_status ACTIVE now f]> (flats db)) db
  end.

(** [UPDATE flat_requests SET status=s, updated_at=$2 WHERE id=$1] *)
Definition update_request_status (id : Z) (s : RequestStatus) (now : Z) (db : DB) : DB :=
  with_flat_requests (alter (FlatRequest.set_status s now) id (flat_requests db))
                     (flat_requests_seq db) db.

(** [SELECT flat_id FROM flats WHERE flat_id = $1], then [rows[0]]. No key
    of the table contains the code unit 0; for such a [flat_id] the query
    throws. *)
Definition select_flat (flat_id : string) (db : DB) : Selected Flat.t :=
  match flats db !! flat_id with
  | Some f => Row f
  | None => if has_NUL flat_id then QueryFailed InvalidByteSequence else NoRow
  end.

(** [UPDATE flats SET ... WHERE flat_id = $1], the assignment given as [upd] *)
Definition update_flat (flat_id : string) (upd : Flat.t -> Flat.t) (db : DB) : DB :=
  with_flats (alter upd flat_id (flats db)) db.

(** [INSERT INTO setup_codes (flat_id, code_hash, expires_at, created_at)] *)
Definition insert_setup_code (flat_id code_hash : string) (expires_at now : Z) (db : DB) : DB :=
  let id := setup_codes_seq db in
  with_setup_codes
    (setup_codes db ++ [SetupCode.mk id flat_id code_hash expires_at None now])
    (id + 1) db.

(** What awaiting a manager operation gives: [{ ok: true, ... }],
    [{ ok: false, error }], or the exception of the query that threw. *)
Inductive result (A : Type) :=
| Ok (a : A)
| Err (error : string)
| Throws (e : QueryError).
Arguments Ok {A} a.
Arguments Err {A} error.
Arguments Throws {A} e.


(** ** [Math.random] and [generateHumanCode] in admin_db_pg.js *)

(** Where a program takes its random numbers from. *)
Inductive RandomSource := MathRandom | CryptoRandom.

(** [Math.random] is the engine's fast generator, seeded once and not meant
    for secrets; only the [crypto] module is a secure source. *)
Definition cryptographically_secure (s : RandomSource) : bool :=
  match s with
  | MathRandom => false
  | CryptoRandom => true
  end.

(** The generator as the program sees it: the outputs still to come, the
    number of draws made, and the sources consulted so far. *)
Record Rng := mkRng {
  rng_outputs : nat -> Z;
  rng_pos : nat;
  rng_log : list RandomSource
}.

(** [Math.random()]: a double in [0, 1), here the numerator [m] of
    [m / 2^53] with [0 <= m < 2^53]. *)
Definition Math_random (g : Rng) : Z * Rng :=
  (rng_outputs g (rng_pos g) mod 2 ^ 53,
   mkRng (rng_outputs g) (S (rng_pos g)) (rng_log g ++ [MathRandom])).

(** [x * n] for the double [x = m / 2^53] and a small integer [n], rounded
    to nearest with ties to even on a 53-bit significand; the result is
    again a numerator over [2^53]. *)
Definition double_mul (m n : Z) : Z :=
  let p := m * n in
  if p <? 2 ^ 53 then p
  else
    let s := Z.log2 p - 52 in
    let q := p / 2 ^ s in
    let r := p mod 2 ^ s in
    let h := 2 ^ (s - 1) in
    let q' := if (h <? r) || ((r =? h) && Z.odd q) then q + 1 else q in
    q' * 2 ^ s.

(** [Math.floor] of a numerator over [2^53]. *)
Definition Math_floor (x : Z) : Z := x / 2 ^ 53.

(** [alphabet[i]] inside [join] with an empty separator: an index out of range reads
    [undefined], which [join] renders as the empty string. *)
Definition char_at (alphabet : string) (i : Z) : string :=
  match String.get (Z.to_nat i) alphabet with
  | Some c => String c EmptyString
  | None => EmptyString
  end.

(** [alphabet[Math.floor(Math.random() * alphabet.length)]] *)
Definition random_char (alphabet : string) (g : Rng) : string * Rng :=
  let (m, g') := Math_random g in
  (char_at alphabet (Math_floor (double_mul m (Z.of_nat (String.length alphabet)))), g').

(** [Array.from({ length: n }, () => random_char).join(empty)] *)
Fixpoint random_chars (n : nat) (alphabet : string) (g : Rng) : string * Rng :=
  match n with
  | O => (EmptyString, g)
  | S n' =>
      let (c, g1) := random_char alphabet g in
      let (rest, g2) := random_chars n' alphabet g1 in
      (String.append c rest, g2)
  end.

Definition letters : string := "ABCDEFGHJKLMNPQRSTUVWXYZ".
Definition digits : string := "23456789".

(** [generateHumanCode(len)]; [slice(0, len + 1)] keeps at most [len + 1]
    characters. *)
Definition generateHumanCode (len : nat) (g : Rng) : string * Rng :=
  let (a, g1) := random_chars 4 letters g in
  let (b, g2) := random_chars 4 digits g1 in
  (String.substring 0 (len + 1) (String.append a (String.append "-" b)), g2).

(** ** The manager: admin_db_pg.js *)

(** The double nearest to the integer [z], ties to the even significand of
    53 bits; every integer up to [2^53] in absolute value is a double. *)
Definition double_round (z : Z) : Z :=
  let a := Z.abs z in
  if a <? 2 ^ 53 then z
  else
    let s := Z.log2 a - 52 in
    let q := a / 2 ^ s in
    let r := a mod 2 ^ s in
    let h := 2 ^ (s - 1) in
    let q' := if (h <? r) || ((r =? h) && Z.odd q) then q + 1 else q in
    Z.sgn z * (q' * 2 ^ s).

(** A number computed from integers: a double that holds an integer, or an
    infinity. *)
Inductive Num :=
| Finite (z : Z)
| Infinity (negative : bool).

(** The double an exact integer result is rounded to; from [2^1024] on the
    rounded value is an infinity. *)
Definition to_double (z : Z) : Num :=
  let r := double_round z in
  if 2 ^ 1024 <=? Z.abs r then Infinity (z <? 0) else Finite r.

(** [x * y] on two numbers that hold integers. *)
Definition js_mul (x y : Z) : Num := to_double (x * y).

(** [x + y] for [x] a number that holds an integer. *)
Definition js_add (x : Z) (y : Num) : Num :=
  match y with
  | Finite y' => to_double (x + y')
  | Infinity negative => Infinity negative
  end.

(** The number of trailing zeros a decimal between [lo] and [hi] can have,
    counted up from [t]. *)
Fixpoint trailing_zeros (fuel : nat) (lo hi t : Z) : Z :=
  match fuel with
  | O => t
  | S fuel' =>
      let p := 10 ^ (t + 1) in
      if (- ((- lo) / p)) * p <=? hi then trailing_zeros fuel' lo hi (t + 1) else t
  end.

(** The integer whose decimal the runtime prints for the double that holds
    the integer [v], which is what a query receives for it: of the decimals
    that read back as this double, one with the fewest digits before its
    trailing zeros, the nearest to [v] of those, the even one of two
    equally near. Up to [2^53] this is [v]; beyond, the doubles lie further
    apart than the integers and the decimal may be another integer. *)
Definition printed (v : Z) : Z :=
  let a := Z.abs v in
  if a <? 2 ^ 53 then v
  else
    let s := Z.log2 a - 52 in
    let q := a / 2 ^ s in
    let up := 2 ^ (s - 1) in
    let down := if q =? 2 ^ 52 then up / 2 else up in
    let edge := if Z.even q then 0 else 1 in
    let lo := a - down + edge in
    let hi := a + up - edge in
    let p := 10 ^ trailing_zeros 330 lo hi 0 in
    let c1 := a / p in
    let c2 := c1 + 1 in
    let in1 := lo <=? c1 * p in
    let in2 := c2 * p <=? hi in
    let m := if in1 && in2 then
               if a - c1 * p <? c2 * p - a then c1
               else if c2 * p - a <? a - c1 * p then c2
               else if Z.even c1 then c1 else c2
             else if in1 then c1 else c2 in
    Z.sgn v * (m * p).

(** [adminCreateFlatRequest]; the three texts are parameters of the
    [INSERT]. *)
Definition adminCreateFlatRequest (db : DB) (flat_id name note : string) (now : Z)
    : result Z * DB :=
  if has_NUL flat_id then (Throws InvalidByteSequence, db)
  else if has_NUL name then (Throws InvalidByteSequence, db)
  else if has_NUL note then (Throws InvalidByteSequence, db)
  else let (id, db') := insert_flat_request flat_id name note now db in (Ok id, db').

(** [adminApproveRequest] *)
Definition adminApproveRequest (db : DB) (requestId : Z) (now : Z) : result string * DB :=
  match select_flat_request requestId db with
  | QueryFailed e => (Throws e, db)
  | NoRow => (Err "REQUEST_NOT_FOUND"%string, db)
  | Row req =>
      let db1 := upsert_flat_active (FlatRequest.flat_id req) now db in
      let db2 := update_request_status requestId APPROVED now db1 in
      (Ok (FlatRequest.flat_id req), db2)
  end.

(** The handler of [POST /admin/api/requests/:id/reject] in server.js, from
    the existence check on. *)
Definition rejectRequest (db : DB) (id : Z) (now : Z) : result unit * DB :=
  match select_flat_request id db with
  | QueryFailed e => (Throws e, db)
  | NoRow => (Err "REQUEST_NOT_FOUND"%string, db)
  | Row _ => (Ok tt, update_request_status id REJECTED now db)
  end.

(** [{ ok: true, flat_id, code, expires_at }] *)
Record IssuedCode := mkIssued {
  issued_flat_id : string;
  issued_code : string;
  issued_expires_at : Z
}.

Section SetupCodes.

(** [bcrypt.hash(code, rounds)], the salt it draws made explicit. *)
Variable bcrypt_hash : string -> Z -> string -> string.

(** [adminGenerateSetupCode]; [expires_at] is returned as the number it
    is and sent, as the decimal printed for it, to the [INSERT] for a
    [BIGINT] column, which comes before the [UPDATE]. *)
Definition adminGenerateSetupCode (db : DB) (flat_id : string) (ttlMinutes : Z)
    (now : Z) (g : Rng) (salt : string) : result IssuedCode * DB * Rng :=
  match select_flat flat_id db with
  | QueryFailed e => (Throws e, db, g)
  | NoRow => (Err "FLAT_NOT_FOUND"%string, db, g)
  | Row _ =>
      let (code, g') := generateHumanCode 9 g in
      let code_hash := bcrypt_hash code 10 salt in
      match js_add now (js_mul ttlMinutes 60000) with
      | Finite expires_at =>
          if in_bigint (printed expires_at) then
            let db1 :=
              insert_setup_code flat_id code_hash (printed expires_at) now db in
            let db2 := update_flat flat_id (Flat.clear_pin now) db1 in
            (Ok (mkIssued flat_id code expires_at), db2, g')
          else (Throws NotABigint, db, g')
      | Infinity _ => (Throws NotABigint, db, g')
      end
  end.

End SetupCodes.

(** [adminRevokeBan] *)
Definition adminRevokeBan (db : DB) (flat_id : string) (now : Z) : result unit * DB :=
  match select_flat flat_id db with
  | QueryFailed e => (Throws e, db)
  | NoRow => (Err "FLAT_NOT_FOUND"%string, db)
  | Row _ => (Ok tt, update_flat flat_id (Flat.clear_ban now) db)
  end.

(** [adminDisableFlat] *)
Definition adminDisableFlat (db : DB) (flat_id : string) (disabled : bool) (now : Z)
    : result unit * DB :=
  match select_flat flat_id db with
  | QueryFailed e => (Throws e, db)
  | NoRow => (Err "FLAT_NOT_FOUND"%string, db)
  | Row _ =>
      (Ok tt,
       update_flat flat_id (Flat.set_status (if disabled then DISABLED else ACTIVE) now) db)
  end.


(** ** String functions of the runtime, on code units below 256 *)

(** The capital letters A to Z. *)
Definition is_upper (c : ascii) : bool :=
  let n := nat_of_ascii c in (65 <=? n)%nat && (n <=? 90)%nat.

(** The small letters a to z. *)
Definition is_lower (c : ascii) : bool :=
  let n := nat_of_ascii c in (97 <=? n)%nat && (n <=? 122)%nat.

(** The capital letters below 256: A to Z, and U+00C0 to U+00DE but for the
    multiplication sign U+00D7. *)
Definition is_capital (c : ascii) : bool :=
  let n := nat_of_ascii c in
  is_upper c || ((192 <=? n)%nat && (n <=? 222)%nat && negb (n =? 215)%nat).

(** The small letters whose capital is 32 below: a to z, and U+00E0 to
    U+00FE but for the division sign U+00F7. *)
Definition is_small (c : ascii) : bool :=
  let n := nat_of_ascii c in
  is_lower c || ((224 <=? n)%nat && (n <=? 254)%nat && negb (n =? 247)%nat).

(** White space and line terminators that [trim] strips, below 256: TAB,
    LF, VT, FF, CR, SPACE and the no-break space U+00A0. *)
Definition is_white_space (c : ascii) : bool :=
  let n := nat_of_ascii c in
  ((9 <=? n)%nat && (n <=? 13)%nat) || (n =? 32)%nat || (n =? 160)%nat.

(** What [toUpperCase] makes of one code unit: the capital of a small
    letter, SS for the sharp s U+00DF, the unit itself when it has no
    capital. The capitals of the micro sign U+00B5 and of U+00FF lie
    beyond 255 and have no image in [string]: [None]. *)
Definition upper_of (c : ascii) : option string :=
  let n := nat_of_ascii c in
  if (n =? 181)%nat || (n =? 255)%nat then None
  else if (n =? 223)%nat then Some "SS"%string
  else if is_small c then Some (String (ascii_of_nat (n - 32)) EmptyString)
  else Some (String c EmptyString).

(** What [toLowerCase] makes of one code unit; every image is below 256. *)
Definition ascii_toLowerCase (c : ascii) : ascii :=
  if is_capital c then ascii_of_nat (nat_of_ascii c + 32) else c.

Fixpoint string_map (f : ascii -> ascii) (s : string) : string :=
  match s with
  | EmptyString => EmptyString
  | String c s' => String (f c) (string_map f s')
  end.

(** [s.toUpperCase()], when the result has an image in [string]. *)
Fixpoint toUpperCase (s : string) : option string :=
  match s with
  | EmptyString => Some EmptyString
  | String c s' =>
      match upper_of c, toUpperCase s' with
      | Some u, Some t => Some (String.append u t)
      | _, _ => None
      end
  end.

(** [s.toLowerCase()] *)
Definition toLowerCase (s : string) : string := string_map ascii_toLowerCase s.

Fixpoint trimStart (s : string) : string :=
  match s with
  | EmptyString => EmptyString
  | String c s' => if is_white_space c then trimStart s' else s
  end.

Fixpoint trimEnd (s : string) : string :=
  match s with
  | EmptyString => EmptyString
  | String c s' =>
      match trimEnd s' with
      | EmptyString => if is_white_space c then EmptyString else String c EmptyString
      | t => String c t
      end
  end.

(** [s.trim()] *)
Definition trim (s : string) : string := trimEnd (trimStart s).

(** [s.startsWith(p)] *)
Definition startsWith (p s : string) : bool := String.prefix p s.

(** [s.includes(p)] *)
Fixpoint includes (p s : string) : bool :=
  String.prefix p s ||
  match s with
  | EmptyString => false
  | String _ s' => includes p s'
  end.

(** [s.slice(0, n)] *)
Definition slice0 (n : nat) (s : string) : string := String.substring 0 n s.

(** Template interpolation of an integer: its decimal digits. *)
Definition decimal (z : Z) : string :=
  DecimalString.NilZero.string_of_int (Z.to_int z).

Definition CRLF : string := String "013" (String "010" EmptyString).

(** ** Sessions and [requireAdmin] in server.js *)

(** What [sessionParser] attaches to a request: nothing, or a session whose
    [isAdmin] is unset or a boolean. *)
Record Session := mkSession { isAdmin : option bool }.

(** [req.session?.isAdmin === true] *)
Definition session_isAdmin (s : option Session) : bool :=
  match s with
  | Some (mkSession (Some true)) => true
  | _ => false
  end.

(** What a handler makes of a request: a JSON reply with its status and
    its envelope [{ ok, ... }], or, when an [await] throws, the rejection of
    the promise it returned, with no reply of its own. *)
Inductive Reply (A : Type) :=
| Json (status : Z) (body : result A)
| HandlerRejects (e : QueryError).
Arguments Json {A} status body.
Arguments HandlerRejects {A} e.

(** [requireAdmin] in front of a handler of an [/admin/api] path. A handler
    is [None] where the embedding has no image of what it computes. *)
Definition requireAdmin {A S : Type} (s : option Session) (st : S)
    (handler : option (Reply A * S)) : option (Reply A * S) :=
  if session_isAdmin s then handler
  else Some (Json 401 (Err "UNAUTHORIZED"%string), st).

(** [if (!out.ok) return res.status(404).json(out); res.json(out)], after
    an [await] that threw when the query did. *)
Definition reply_of {A : Type} (out : result A) : Reply A :=
  match out with
  | Ok a => Json 200 (Ok a)
  | Err e => Json 404 (Err e)
  | Throws e => HandlerRejects e
  end.

(** A value that is absent or the empty string is falsy. *)
Definition truthy_string (o : option string) : bool :=
  match o with
  | Some (String _ _) => true
  | _ => false
  end.

(** [String(x || empty)], and [String(x)] of a present string. *)
Definition String_or_empty (o : option string) : string :=
  match o with
  | Some s => s
  | None => EmptyString
  end.

(** ** The routes that take a [flat_id] *)

(** [String(x).trim().toUpperCase()] *)
Definition normal_flat_id (raw : string) : option string := toUpperCase (trim raw).

(** [POST /admin/api/requests]; the body members are strings or absent. *)
Definition post_requests (s : option Session) (body_flat_id body_name body_note : option string)
    (now : Z) (db : DB) : option (Reply Z * DB) :=
  requireAdmin s db
    (if negb (truthy_string body_flat_id) || negb (truthy_string body_name)
     then Some (Json 400 (Err "flat_id and name required"%string), db)
     else
       match normal_flat_id (String_or_empty body_flat_id) with
       | None => None
       | Some flat_id =>
           let (out, db') :=
             adminCreateFlatRequest db flat_id (trim (String_or_empty body_name))
               (String_or_empty body_note) now in
           Some (match out with
                 | Throws e => HandlerRejects e
                 | _ => Json 200 out
                 end, db')
       end).

(** [POST /admin/api/requests/:id/approve]; [param_id] is
    [Number(req.params.id)] when it is finite. *)
Definition post_approve (s : option Session) (param_id : option Z) (now : Z) (db : DB)
    : option (Reply string * DB) :=
  requireAdmin s db
    (match param_id with
     | None => Some (Json 400 (Err "bad id"%string), db)
     | Some id =>
         let (out, db') := adminApproveRequest db id now in Some (reply_of out, db')
     end).

(** [POST /admin/api/requests/:id/reject] *)
Definition post_reject (s : option Session) (param_id : option Z) (now : Z) (db : DB)
    : option (Reply unit * DB) :=
  requireAdmin s db
    (match param_id with
     | None => Some (Json 400 (Err "bad id"%string), db)
     | Some id =>
         let (out, db') := rejectRequest db id now in Some (reply_of out, db')
     end).

(** [POST /admin/api/flats/:flat_id/revoke-ban] *)
Definition post_revoke_ban (s : option Session) (param_flat_id : string) (now : Z) (db : DB)
    : option (Reply unit * DB) :=
  requireAdmin s db
    (match normal_flat_id param_flat_id with
     | None => None
     | Some flat_id =>
         let (out, db') := adminRevokeBan db flat_id now in Some (reply_of out, db')
     end).

(** [POST /admin/api/flats/:flat_id/disable]; [body_disabled] is
    [req.body?.disabled] after [Boolean], absent when the body has none. *)
Definition post_disable (s : option Session) (param_flat_id : string)
    (body_disabled : option bool) (now : Z) (db : DB) : option (Reply unit * DB) :=
  requireAdmin s db
    (match normal_flat_id param_flat_id with
     | None => None
     | Some flat_id =>
         let disabled := match body_disabled with Some b => b | None => true end in
         let (out, db') := adminDisableFlat db flat_id disabled now in
         Some (reply_of out, db')
     end).

Section SetupCodeRoute.

Variable bcrypt_hash : string -> Z -> string -> string.

(** [POST /admin/api/flats/:flat_id/setup-code]; [body_ttl] is
    [Number(req.body?.ttlMinutes ?? 60)] when it is finite. *)
Definition post_setup_code (s : option Session) (param_flat_id : string)
    (body_ttl : option Z) (now : Z) (g : Rng) (salt : string) (db : DB)
    : option (Reply IssuedCode * (DB * Rng)) :=
  requireAdmin s (db, g)
    (match normal_flat_id param_flat_id with
     | None => None
     | Some flat_id =>
         let ttlMinutes := match body_ttl with Some t => t | None => 60 end in
         match adminGenerateSetupCode bcrypt_hash db flat_id ttlMinutes now g salt with
         | (out, db', g') => Some (reply_of out, (db', g'))
         end
     end).

End SetupCodeRoute.


(** ** The request-rate window: [metrics] and [pruneOldRequests] in server.js *)

Record Metrics := mkMetrics {
  startedAt : Z;
  totalRequests : Z;
  inFlight : Z;
  uniqueIPs : gset string;
  requestTimestamps : list Z
}.

(** [while (ts.length && ts[0] < cutoff) ts.shift()] *)
Fixpoint shift_while_older (cutoff : Z) (ts : list Z) : list Z :=
  match ts with
  | [] => []
  | t :: rest => if t <? cutoff then shift_while_older cutoff rest else ts
  end.

(** [pruneOldRequests(now)] *)
Definition pruneOldRequests (now : Z) (m : Metrics) : Metrics :=
  let cutoff := now - 60000 in
  mkMetrics (startedAt m) (totalRequests m) (inFlight m) (uniqueIPs m)
            (shift_while_older cutoff (requestTimestamps m)).

(** The counting middleware every HTTP request passes, up to [next()]. *)
Definition count_request (now : Z) (ip : string) (m : Metrics) : Metrics :=
  pruneOldRequests now
    (mkMetrics (startedAt m) (totalRequests m + 1) (inFlight m + 1)
               (uniqueIPs m ∪ {[ ip ]}) (requestTimestamps m ++ [now])).

(** [res.on("finish", ...)] *)
Definition request_finished (m : Metrics) : Metrics :=
  mkMetrics (startedAt m) (totalRequests m) (Z.max 0 (inFlight m - 1))
            (uniqueIPs m) (requestTimestamps m).

(** The body of the reply of [GET /admin/api/metrics], [mem] apart. *)
Record MetricsReport := mkReport {
  report_uptimeSec : Z;
  report_totalRequests : Z;
  report_inFlight : Z;
  report_uniqueIPs : Z;
  report_rpm : Z
}.

(** The handler of [GET /admin/api/metrics]. *)
Definition metrics_handler (now : Z) (m : Metrics) : MetricsReport * Metrics :=
  let m' := pruneOldRequests now m in
  (mkReport ((now - startedAt m') / 1000) (totalRequests m') (inFlight m')
            (Z.of_nat (size (uniqueIPs m')))
            (Z.of_nat (length (requestTimestamps m'))),
   m').

(** [GET /admin/api/metrics] as a client sees it: the request is counted by
    the middleware at [t_in], then answered by the handler at [t_out]. *)
Definition get_metrics (t_in t_out : Z) (ip : string) (m : Metrics)
    : MetricsReport * Metrics :=
  metrics_handler t_out (count_request t_in ip m).

(** ** The WebSocket channel in server.js *)

Inductive ReadyState := CONNECTING | OPEN | CLOSING | CLOSED.

#[global] Instance ReadyState_eq_dec : EqDecision ReadyState.
Proof. solve_decision. Defined.

(** What the upgrade handler reads of a request: its URL, the session
    [sessionParser] found for its cookie, and whether its headers make a
    well-formed WebSocket handshake. *)
Record UpgradeRequest := mkUpgrade {
  req_url : option string;
  req_session : option Session;
  req_handshake_ok : bool
}.

Section Monitoring.

(** The readings of [process.memoryUsage()] and [os] a snapshot carries,
    with the constant thresholds. *)
Variable Host : Type.

Record Snapshot := mkSnapshot {
  ts : Z;
  uptimeSec : Z;
  snap_totalRequests : Z;
  snap_inFlight : Z;
  snap_uniqueIPs : Z;
  rpm : Z;
  viewers : Z;
  host : Host
}.

(** The process: the counters, the set [wsClients] in insertion order, and
    the [readyState] of every WebSocket. *)
Record Server := mkServer {
  metrics : Metrics;
  wsClients : list nat;
  readyState : nat -> ReadyState
}.

(** [buildSnapshot()] *)
Definition buildSnapshot (now : Z) (h : Host) (sv : Server) : Snapshot * Server :=
  let m := pruneOldRequests now (metrics sv) in
  (mkSnapshot now ((now - startedAt m) / 1000) (totalRequests m) (inFlight m)
              (Z.of_nat (size (uniqueIPs m)))
              (Z.of_nat (length (requestTimestamps m)))
              (Z.of_nat (length (wsClients sv))) h,
   mkServer m (wsClients sv) (readyState sv)).

(** What the process does to the outside. *)
Inductive Effect :=
| SocketWrite (socket : nat) (data : string)
| SocketDestroy (socket : nat)
| UpgradeCompleted (socket : nat)
| HandshakeAborted (socket : nat)
| WsSend (ws : nat) (snap : Snapshot).

(** [wsClients.add(ws)] *)
Definition set_add (ws : nat) (l : list nat) : list nat :=
  if decide (ws ∈ l) then l else l ++ [ws].

(** [wsClients.delete(ws)] *)
Definition set_delete (ws : nat) (l : list nat) : list nat :=
  List.filter (fun x => negb (Nat.eqb x ws)) l.

(** [broadcast(obj)] *)
Definition broadcast (snap : Snapshot) (sv : Server) : list Effect :=
  List.map (fun ws => WsSend ws snap)
           (List.filter (fun ws => bool_decide (readyState sv ws = OPEN)) (wsClients sv)).

(** [wss.on("connection", ...)]: the WebSocket made from socket [ws] is open. *)
Definition on_connection (ws : nat) (now : Z) (h : Host) (sv : Server)
    : list Effect * Server :=
  let sv1 := mkServer (metrics sv) (set_add ws (wsClients sv))
                      (fun x => if Nat.eqb x ws then OPEN else readyState sv x) in
  let (snap, sv2) := buildSnapshot now h sv1 in
  ([WsSend ws snap], sv2).

Definition unauthorized_line : string :=
  String.append "HTTP/1.1 401 Unauthorized" (String.append CRLF CRLF).

(** [server.on("upgrade", ...)] *)
Definition on_upgrade (req : UpgradeRequest) (socket : nat) (now : Z) (h : Host)
    (sv : Server) : list Effect * Server :=
  if negb (match req_url req with
           | Some u => startsWith "/admin/ws" u
           | None => false
           end)
  then ([SocketDestroy socket], sv)
  else if negb (session_isAdmin (req_session req))
  then ([SocketWrite socket unauthorized_line; SocketDestroy socket], sv)
  else if req_handshake_ok req
  then
    let (fx, sv') := on_connection socket now h sv in
    (UpgradeCompleted socket :: fx, sv')
  else ([HandshakeAborted socket], sv).

(** The timer: [if (wsClients.size > 0) broadcast(buildSnapshot())] *)
Definition on_tick (now : Z) (h : Host) (sv : Server) : list Effect * Server :=
  if (0 <? Z.of_nat (length (wsClients sv)))
  then let (snap, sv') := buildSnapshot now h sv in (broadcast snap sv', sv')
  else ([], sv).

(** What happens to the process. *)
Inductive Event :=
| EvUpgrade (req : UpgradeRequest) (socket : nat) (now : Z) (h : Host)
| EvTick (now : Z) (h : Host)
| EvHttpRequest (now : Z) (ip : string)
| EvHttpFinish
| EvWsClosing (ws : nat)
| EvWsClose (ws : nat).

Definition step (ev : Event) (sv : Server) : list Effect * Server :=
  match ev with
  | EvUpgrade req socket now h => on_upgrade req socket now h sv
  | EvTick now h => on_tick now h sv
  | EvHttpRequest now ip =>
      ([], mkServer (count_request now ip (metrics sv)) (wsClients sv) (readyState sv))
  | EvHttpFinish =>
      ([], mkServer (request_finished (metrics sv)) (wsClients sv) (readyState sv))
  | EvWsClosing ws =>
      ([], mkServer (metrics sv) (wsClients sv)
                    (fun x => if Nat.eqb x ws then CLOSING else readyState sv x))
  | EvWsClose ws =>
      ([], mkServer (metrics sv) (set_delete ws (wsClients sv))
                    (fun x => if Nat.eqb x ws then CLOSED else readyState sv x))
  end.

Fixpoint run (evs : list Event) (sv : Server) : list Effect * Server :=
  match evs with
  | [] => ([], sv)
  | ev :: rest =>
      let (fx, sv1) := step ev sv in
      let (fx', sv2) := run rest sv1 in
      (fx ++ fx', sv2)
  end.

End Monitoring.

Arguments mkSnapshot {Host}.
Arguments ts {Host}.
Arguments uptimeSec {Host}.
Arguments rpm {Host}.
Arguments viewers {Host}.
Arguments host {Host}.
Arguments snap_totalRequests {Host}.
Arguments snap_inFlight {Host}.
Arguments snap_uniqueIPs {Host}.
Arguments buildSnapshot {Host}.
Arguments SocketWrite {Host}.
Arguments SocketDestroy {Host}.
Arguments UpgradeCompleted {Host}.
Arguments HandshakeAborted {Host}.
Arguments WsSend {Host}.
Arguments broadcast {Host}.
Arguments on_connection {Host}.
Arguments on_upgrade {Host}.
Arguments on_tick {Host}.
Arguments EvUpgrade {Host}.
Arguments EvTick {Host}.
Arguments EvHttpRequest {Host}.
Arguments EvHttpFinish {Host}.
Arguments EvWsClosing {Host}.
Arguments EvWsClose {Host}.
Arguments step {Host}.
Arguments run {Host}.

(** ** The snapshot proxy: [fetchUserLiveSnapshot] in server.js *)

(** What [fetch] resolves to: the status, the [content-type] header when
    there is one, and the body when it can be read. *)
Record Response := mkResponse {
  res_status : Z;
  res_content_type : option string;
  res_body : option string
}.

(** [res.ok] *)
Definition res_ok (res : Response) : bool :=
  (200 <=? res_status res) && (res_status res <=? 299).

(** How the body of a response was consumed. *)
Inductive BodyRead := ReadAsText | ReadAsJSON.

Section SnapshotProxy.

(** The numbers of JSON: doubles, with the two operations the proxy can
    reach. *)
Variable JSNumber : Type.
Variable number_is_zero : JSNumber -> bool.
Variable Number_toString : JSNumber -> string.

#[local] Unset Elimination Schemes.
Inductive JSON :=
| JNull
| JBool (b : bool)
| JNum (n : JSNumber)
| JStr (s : string)
| JArr (items : list JSON)
| JObj (members : list (string * JSON)).
#[local] Set Elimination Schemes.

(** [JSON.parse]: no value when the text is not JSON. *)
Variable JSON_parse : string -> option JSON.

(** [o[key]] of an object built by [JSON.parse]: the last member of that
    name wins. *)
Fixpoint member (key : string) (members : list (string * JSON)) : option JSON :=
  match members with
  | [] => None
  | (k, v) :: rest =>
      match member key rest with
      | Some v' => Some v'
      | None => if String.eqb k key then Some v else None
      end
  end.

(** [data?.key] for [key] one of [ok] and [error], which no primitive and
    no array has: [None] is [undefined]. *)
Definition get (key : string) (data : JSON) : option JSON :=
  match data with
  | JObj members => member key members
  | _ => None
  end.

(** The truth value of [v] in [v || ...]. *)
Definition truthy (v : option JSON) : bool :=
  match v with
  | None => false
  | Some JNull => false
  | Some (JBool b) => b
  | Some (JNum n) => negb (number_is_zero n)
  | Some (JStr EmptyString) => false
  | Some (JStr (String _ _)) => true
  | Some (JArr _) => true
  | Some (JObj _) => true
  end.

(** The message [new Error(v)] gets: [v] converted to a string. An array
    is joined with commas, [null] elements left empty; an object gives
    [[object Object]] through the [toString] it inherits, but one with a
    member of that name, which is no function, cannot be converted: [None]
    is the [TypeError]. *)
Fixpoint ToString (v : JSON) : option string :=
  match v with
  | JNull => Some "null"%string
  | JBool true => Some "true"%string
  | JBool false => Some "false"%string
  | JNum n => Some (Number_toString n)
  | JStr s => Some s
  | JArr items =>
      (fix join (l : list JSON) : option string :=
         match l with
         | [] => Some EmptyString
         | x :: rest =>
             match match x with JNull => Some EmptyString | _ => ToString x end with
             | None => None
             | Some sx =>
                 match rest with
                 | [] => Some sx
                 | _ =>
                     match join rest with
                     | None => None
                     | Some sr => Some (String.append sx (String.append "," sr))
                     end
                 end
             end
         end) items
  | JObj members =>
      match member "toString" members with
      | Some _ => None
      | None => Some "[object Object]"%string
      end
  end.

(** How the call ends: with the payload, with [throw new Error(message)],
    with the [TypeError] of a message that cannot be made, or with the
    rejection of [res.json()]. *)
Inductive Outcome :=
| Return (data : JSON)
| Throw (message : string)
| ThrowTypeError
| RejectedByJson.

Definition SNAPSHOT_HTTP (status : Z) : string :=
  String.append "SNAPSHOT_HTTP_" (decimal status).

(** [fetchUserLiveSnapshot], from the response on, with the reads of the
    body it made. *)
Definition fetchUserLiveSnapshot (res : Response) : Outcome * list BodyRead :=
  let ct := toLowerCase (match res_content_type res with
                         | Some c => c
                         | None => EmptyString
                         end) in
  if negb (includes "application/json" ct) then
    let text := match res_body res with Some t => t | None => EmptyString end in
    (Throw (String.append "BAD_SNAPSHOT_RESPONSE ("
              (String.append (decimal (res_status res))
                 (String.append ") " (slice0 120 text)))),
     [ReadAsText])
  else
    match res_body res with
    | None => (RejectedByJson, [ReadAsJSON])
    | Some body =>
        match JSON_parse body with
        | None => (RejectedByJson, [ReadAsJSON])
        | Some data =>
            if negb (res_ok res) ||
               match get "ok" data with
               | Some (JBool false) => true
               | _ => false
               end
            then
              (match get "error" data with
               | Some e =>
                   if truthy (Some e)
                   then match ToString e with
                        | Some message => Throw message
                        | None => ThrowTypeError
                        end
                   else Throw (SNAPSHOT_HTTP (res_status res))
               | None => Throw (SNAPSHOT_HTTP (res_status res))
               end,
               [ReadAsJSON])
            else (Return data, [ReadAsJSON])
        end
    end.

End SnapshotProxy.

Arguments JNull {JSNumber}.
Arguments JBool {JSNumber}.
Arguments JNum {JSNumber}.
Arguments JStr {JSNumber}.
Arguments JArr {JSNumber}.
Arguments JObj {JSNumber}.
Arguments get {JSNumber}.
Arguments member {JSNumber}.
Arguments truthy {JSNumber}.
Arguments ToString {JSNumber}.
Arguments Return {JSNumber}.
Arguments Throw {JSNumber}.
Arguments ThrowTypeError {JSNumber}.
Arguments RejectedByJson {JSNumber}.
Arguments fetchUserLiveSnapshot {JSNumber}.


(** ** Vocabulary of the properties *)

(** The status of request [id], when the row exists. *)
Definition request_status (db : DB) (id : Z) : option RequestStatus :=
  FlatRequest.status <$> flat_requests db !! id.

Definition terminal (s : RequestStatus) : Prop := s = APPROVED \/ s = REJECTED.

(** C2, as stated: a request whose status is terminal keeps it under
    [approveRequest] and under [rejectRequest]. *)
Definition terminal_is_absorbing : Prop :=
  forall (db : DB) (id now : Z) (s : RequestStatus),
    request_status db id = Some s -> terminal s ->
    request_status (adminApproveRequest db id now).2 id = Some s /\
    request_status (rejectRequest db id now).2 id = Some s.

(** A capital letter other than I and O. *)
Definition is_code_letter (c : ascii) : bool :=
  is_upper c && negb (Ascii.eqb c "I") && negb (Ascii.eqb c "O").

(** A digit other than 0 and 1. *)
Definition is_code_digit (c : ascii) : bool :=
  let n := nat_of_ascii c in (50 <=? n)%nat && (n <=? 57)%nat.

(** The pattern XXXX-NNNN. *)
Definition matches_code_pattern (s : string) : bool :=
  match s with
  | String a (String b (String c (String d (String h
      (String w (String x (String y (String z EmptyString)))))))) =>
      is_code_letter a && is_code_letter b && is_code_letter c && is_code_letter d
      && Ascii.eqb h "-"
      && is_code_digit w && is_code_digit x && is_code_digit y && is_code_digit z
  | _ => false
  end.

(** The sources consulted between two states of the generator. *)
Definition sources_consulted (g g' : Rng) : list RandomSource :=
  drop (length (rng_log g)) (rng_log g').

(** The generator after [n] more calls of [Math.random]. *)
Definition advance (n : nat) (g : Rng) : Rng :=
  mkRng (rng_outputs g) (n + rng_pos g) (rng_log g ++ repeat MathRandom n).

(** C3, as stated: every code issued matches the pattern and every draw
    made for it came from a cryptographically secure source. *)
Definition codes_are_securely_drawn : Prop :=
  forall (bcrypt_hash : string -> Z -> string -> string) (db : DB) (flat_id : string)
         (ttlMinutes now : Z) (g : Rng) (salt : string)
         (issued : IssuedCode) (db' : DB) (g' : Rng),
    adminGenerateSetupCode bcrypt_hash db flat_id ttlMinutes now g salt
      = (Ok issued, db', g') ->
    matches_code_pattern (issued_code issued) = true /\
    forallb cryptographically_secure (sources_consulted g g') = true.

(** The test the proxy makes on the content type: in lower case, it
    contains [application/json] somewhere. *)
Definition content_type_includes_json (res : Response) : bool :=
  includes "application/json" (toLowerCase (String_or_empty (res_content_type res))).


(** What stands before the first semicolon of a header value. *)
Fixpoint before_semicolon (s : string) : string :=
  match s with
  | EmptyString => EmptyString
  | String c s' => if Ascii.eqb c ";" then EmptyString else String c (before_semicolon s')
  end.

(** The media type a response declares: its content type up to the
    parameters, trimmed, in lower case. *)
Definition declared_media_type (res : Response) : string :=
  toLowerCase (trim (before_semicolon (String_or_empty (res_content_type res)))).

(** The declared content type is JSON. *)
Definition declared_type_is_json (res : Response) : bool :=
  String.eqb (declared_media_type res) "application/json".

(** C7, as stated: a response whose declared type is not JSON fails with
    BAD_SNAPSHOT_RESPONSE, the status and 120 characters at most of the
    body, which is not parsed; one that declares JSON and parses, with a
    status that is no success or a payload with [ok: false], fails with
    the error string of the payload when it has one and with the status
    otherwise; any other that declares JSON and parses returns the
    payload. *)
Definition proxy_goes_by_declared_type : Prop :=
  forall (JSNumber : Type) (number_is_zero : JSNumber -> bool)
         (Number_toString : JSNumber -> string)
         (JSON_parse : string -> option (JSON JSNumber)) (res : Response),
    (declared_type_is_json res = false ->
       fetchUserLiveSnapshot number_is_zero Number_toString JSON_parse res =
         (Throw (String.append "BAD_SNAPSHOT_RESPONSE ("
                   (String.append (decimal (res_status res))
                      (String.append ") "
                         (slice0 120 (String_or_empty (res_body res)))))),
          [ReadAsText])) /\
    (forall body data,
       declared_type_is_json res = true ->
       res_body res = Some body -> JSON_parse body = Some data ->
       res_ok res = false \/ get "ok" data = Some (JBool false) ->
       fetchUserLiveSnapshot number_is_zero Number_toString JSON_parse res =
         (Throw (match get "error" data with
                 | Some (JStr e) => e
                 | _ => SNAPSHOT_HTTP (res_status res)
                 end),
          [ReadAsJSON])) /\
    (forall body data,
       declared_type_is_json res = true ->
       res_body res = Some body -> JSON_parse body = Some data ->
       res_ok res = true -> get "ok" data <> Some (JBool false) ->
       fetchUserLiveSnapshot number_is_zero Number_toString JSON_parse res =
         (Return data, [ReadAsJSON])).


(** What touches the window: a counted request, or a read by the metrics
    handler or by [buildSnapshot]; both reads act on the counters as
    [pruneOldRequests]. *)
Inductive WindowOp :=
| Counted (now : Z) (ip : string)
| ReadAt (now : Z).

Definition op_time (op : WindowOp) : Z :=
  match op with
  | Counted now _ => now
  | ReadAt now => now
  end.

Definition apply_op (m : Metrics) (op : WindowOp) : Metrics :=
  match op with
  | Counted now ip => count_request now ip m
  | ReadAt now => pruneOldRequests now m
  end.

Definition apply_ops (ops : list WindowOp) (m : Metrics) : Metrics :=
  fold_left apply_op ops m.

(** The clock never runs backwards over a sequence of operations. *)
Fixpoint chronological (ops : list WindowOp) : Prop :=
  match ops with
  | [] => True
  | op :: rest =>
      Forall (fun op' => op_time op <= op_time op') rest /\ chronological rest
  end.

(** C8, as stated: pruning keeps exactly the entries of the last 60
    seconds, and after requests made in chronological order a read made 61
    seconds or more after the last one, by [GET /admin/api/metrics] or by
    [buildSnapshot], reports a rate of 0. *)
Definition late_read_reports_no_request : Prop :=
  forall (ops : list WindowOp) (m0 : Metrics) (t_in t_out : Z) (ip : string)
         (clients : list nat) (rs : nat -> ReadyState),
    requestTimestamps m0 = [] -> chronological ops ->
    Forall (fun op => op_time op + 61000 <= t_in) ops -> t_in <= t_out ->
    let m := apply_ops ops m0 in
    requestTimestamps (pruneOldRequests t_in m)
      = List.filter (fun t => t_in - 60000 <=? t) (requestTimestamps m) /\
    report_rpm (get_metrics t_in t_out ip m).1 = 0 /\
    rpm (buildSnapshot t_in tt (mkServer m clients rs)).1 = 0.








(** The socket an effect reaches with data of the WebSocket protocol: the
    completed handshake or a frame. *)
Definition websocket_traffic {Host : Type} (s : nat) (fx : Effect Host) : Prop :=
  match fx with
  | UpgradeCompleted s' => s' = s
  | WsSend s' _ => s' = s
  | _ => False
  end.

(** An event that could let socket [s] in: an upgrade of [s] to [/admin/ws]
    with an authenticated session. *)
Definition authenticated_upgrade {Host : Type} (s : nat) (ev : Event Host) : Prop :=
  match ev with
  | EvUpgrade req s' _ _ => s' = s /\ session_isAdmin (req_session req) = true
  | _ => False
  end.


(** ** Sample stores *)

(** A store with a pending request for a flat that was struck and banned
    before. *)
Definition db_B12 : DB :=
  mkDB {[ 1 := FlatRequest.mk "B12" "Jane" EmptyString PENDING 100 100 ]} 2
       {[ "B12"%string := Flat.mk DISABLED (Some "pin"%string) None 3 (Some 999) true 50 60 None ]}
       [] 1 [].

(** A store whose only request was rejected. *)
Definition db_rejected : DB :=
  mkDB {[ 7 := FlatRequest.mk "C3" "Raj" EmptyString REJECTED 100 150 ]} 8 ∅ [] 1 [].


(** The double quote. *)
Definition quote : string := String "034" EmptyString.

(** The text [{ok:false,error:USER_DOWN}] with its member names and its
    string in double quotes, the payload it is the JSON text of, and a
    parser that knows this text and the next. *)
Definition body_down : string :=
  String.append "{"
    (String.append quote (String.append "ok" (String.append quote
      (String.append ":false,"
        (String.append quote (String.append "error" (String.append quote
          (String.append ":"
            (String.append quote (String.append "USER_DOWN" (String.append quote "}"))))))))))).

Definition payload_down : JSON Z :=
  JObj [("ok"%string, JBool false); ("error"%string, JStr "USER_DOWN")].

(** The text [{ok:true}] with its member name in double quotes, and the
    payload it is the JSON text of. *)
Definition body_fine : string :=
  String.append "{"
    (String.append quote (String.append "ok" (String.append quote ":true}"))).

Definition payload_fine : JSON Z := JObj [("ok"%string, JBool true)].

Definition parse_sample (body : string) : option (JSON Z) :=
  if String.eqb body body_down then Some payload_down
  else if String.eqb body body_fine then Some payload_fine
  else None.

(** A 502 whose content type is JSON in mixed case. *)
Definition res_down : Response :=
  mkResponse 502 (Some "Application/JSON; charset=utf-8"%string) (Some body_down).

(** A 200 that declares plain text and names JSON in a parameter. *)
Definition res_mislabelled : Response :=
  mkResponse 200 (Some "text/plain; note=application/json"%string) (Some body_fine).

(** The session of an administrator who has logged in. *)
Definition admin_session : option Session := Some (mkSession (Some true)).

(** A window that has seen no request. *)
Definition metrics0 : Metrics := mkMetrics 0 0 0 ∅ [].

(** Three requests in one minute and a read in between. *)
Definition ops_one_minute : list WindowOp :=
  [Counted 1000 "10.0.0.1"; Counted 2000 "10.0.0.2"; ReadAt 30000; Counted 59000 "10.0.0.1"].

(** A generator that has made no draw yet. *)
Definition rng0 : Rng := mkRng (fun k => 2 ^ 53 - 1 - Z.of_nat k * 123456789012345) 0 [].


(** * Properties *)

(** ** Frame lemmas of the statements *)

Lemma flats_update_request_status id s now db :
  flats (update_request_status id s now db) = flats db.
Proof. reflexivity. Qed.

Lemma flats_upsert_flat_active_other fid fid' now db :
  fid <> fid' -> flats (upsert_flat_active fid now db) !! fid' = flats db !! fid'.
Proof.
  intros Hne. unfold upsert_flat_active.
  destruct (flats db !! fid); simpl; by rewrite lookup_insert_ne.
Qed.

Lemma flat_requests_upsert_flat_active fid now db :
  flat_requests (upsert_flat_active fid now db) = flat_requests db.
Proof. unfold upsert_flat_active. by destruct (flats db !! fid). Qed.

Lemma request_status_update id s now db id' :
  request_status (update_request_status id s now db) id' =
  if decide (id = id')
  then (fun _ => s) <$> request_status db id'
  else request_status db id'.
Proof.
  unfold request_status, update_request_status. simpl.
  rewrite lookup_alter. case_decide as Hid.
  - subst. by destruct (flat_requests db !! id').
  - done.
Qed.

Lemma update_flat_lookup fid upd db fid' :
  flats (update_flat fid upd db) !! fid' =
  if decide (fid = fid') then upd <$> flats db !! fid' else flats db !! fid'.
Proof. unfold update_flat. simpl. rewrite lookup_alter. by case_decide; subst. Qed.

(** ** The manager *)

(** C1: approving an existing request creates the flat with status ACTIVE,
    no strikes, no ban and no pending revoke when the flat is absent, and
    otherwise sets the status to ACTIVE and the update time to now, leaving
    strike count, ban and revoke flag as they were. *)
Theorem approveRequest_upserts_flat (db : DB) (requestId now : Z) (req : FlatRequest.t) :
  flat_requests db !! requestId = Some req ->
  let fid := FlatRequest.flat_id req in
  let db' := (adminApproveRequest db requestId now).2 in
  match flats db !! fid with
  | None =>
      exists f', flats db' !! fid = Some f' /\
        Flat.status f' = ACTIVE /\ Flat.strike_count f' = 0 /\
        Flat.ban_until f' = None /\ Flat.requires_admin_revoke f' = false
  | Some f =>
      exists f', flats db' !! fid = Some f' /\
        Flat.status f' = ACTIVE /\ Flat.updated_at f' = now /\
        Flat.strike_count f' = Flat.strike_count f /\
        Flat.ban_until f' = Flat.ban_until f /\
        Flat.requires_admin_revoke f' = Flat.requires_admin_revoke f
  end.
Proof.
  intros Hreq fid db'. subst db'.
  unfold adminApproveRequest, select_flat_request. rewrite Hreq. simpl.
  fold fid. unfold upsert_flat_active.
  destruct (flats db !! fid) as [f|] eqn:Hf; simpl;
    rewrite lookup_insert_eq; eexists; (split; [reflexivity|]); simpl; tauto.
Qed.

Lemma approveRequest_upserts_flat_witness :
  exists f', flats (adminApproveRequest db_B12 1 200).2 !! "B12"%string = Some f' /\
    Flat.status f' = ACTIVE /\ Flat.updated_at f' = 200 /\
    Flat.strike_count f' = 3 /\ Flat.ban_until f' = Some 999 /\
    Flat.requires_admin_revoke f' = true.
Proof.
  exact (approveRequest_upserts_flat db_B12 1 200
           (FlatRequest.mk "B12" "Jane" EmptyString PENDING 100 100) eq_refl).
Defined.

(** C2, counterexample: approving request 7, which was rejected, makes it
    APPROVED. *)
Lemma terminal_is_absorbing_fails : ~ terminal_is_absorbing.
Proof.
  intros H.
  destruct (H db_rejected 7 200 REJECTED eq_refl (or_intror eq_refl)) as [Happ _].
  vm_compute in Happ. discriminate Happ.
Qed.

(** C2, amended: on an existing request [approveRequest] sets the status to
    APPROVED and [rejectRequest] sets it to REJECTED, whatever the status
    was; so APPROVED persists under a repeated approval and REJECTED under
    a repeated rejection, and the status of every other request is left as
    it was by both. *)
Theorem approve_reject_overwrite_status (db : DB) (id now : Z) (s : RequestStatus) :
  request_status db id = Some s ->
  request_status (adminApproveRequest db id now).2 id = Some APPROVED /\
  request_status (rejectRequest db id now).2 id = Some REJECTED /\
  (forall id', id' <> id ->
     request_status (adminApproveRequest db id now).2 id' = request_status db id' /\
     request_status (rejectRequest db id now).2 id' = request_status db id').
Proof.
  intros Hs. unfold adminApproveRequest, rejectRequest, select_flat_request.
  assert (exists r, flat_requests db !! id = Some r) as [r Hr].
  { unfold request_status in Hs. destruct (flat_requests db !! id); [eauto|discriminate]. }
  rewrite Hr. simpl.
  assert (Hs1 : request_status (upsert_flat_active (FlatRequest.flat_id r) now db) id = Some s).
  { unfold request_status. by rewrite flat_requests_upsert_flat_active. }
  repeat split.
  - rewrite request_status_update, decide_True by done. by rewrite Hs1.
  - rewrite request_status_update, decide_True by done. by rewrite Hs.
  - rewrite request_status_update, decide_False by done.
    unfold request_status. by rewrite flat_requests_upsert_flat_active.
  - by rewrite request_status_update, decide_False by done.
Qed.

Lemma approve_reject_overwrite_status_witness :
  request_status (adminApproveRequest db_rejected 7 200).2 7 = Some APPROVED /\
  request_status (rejectRequest db_rejected 7 200).2 7 = Some REJECTED /\
  (forall id', id' <> 7 ->
     request_status (adminApproveRequest db_rejected 7 200).2 id' =
       request_status db_rejected id' /\
     request_status (rejectRequest db_rejected 7 200).2 id' =
       request_status db_rejected id').
Proof. exact (approve_reject_overwrite_status db_rejected 7 200 REJECTED eq_refl). Defined.




(** C10: on an existing flat [revokeBan] changes no column but the ban, the
    revoke flag and the update time, and [disableFlat] none but the status
    and the update time; every other flat and every other table is left as
    it was. *)
Theorem revokeBan_disableFlat_frame (db : DB) (flat_id : string) (disabled : bool)
    (now : Z) (f : Flat.t) :
  flats db !! flat_id = Some f ->
  let db1 := (adminRevokeBan db flat_id now).2 in
  let db2 := (adminDisableFlat db flat_id disabled now).2 in
  (exists f1, flats db1 !! flat_id = Some f1 /\
     Flat.ban_until f1 = None /\ Flat.requires_admin_revoke f1 = false /\
     Flat.updated_at f1 = now /\
     Flat.status f1 = Flat.status f /\ Flat.pin_hash f1 = Flat.pin_hash f /\
     Flat.password_hash f1 = Flat.password_hash f /\
     Flat.strike_count f1 = Flat.strike_count f /\
     Flat.created_at f1 = Flat.created_at f /\
     Flat.last_login_at f1 = Flat.last_login_at f) /\
  (exists f2, flats db2 !! flat_id = Some f2 /\
     Flat.status f2 = (if disabled then DISABLED else ACTIVE) /\
     Flat.updated_at f2 = now /\
     Flat.pin_hash f2 = Flat.pin_hash f /\
     Flat.password_hash f2 = Flat.password_hash f /\
     Flat.strike_count f2 = Flat.strike_count f /\
     Flat.ban_until f2 = Flat.ban_until f /\
     Flat.requires_admin_revoke f2 = Flat.requires_admin_revoke f /\
     Flat.created_at f2 = Flat.created_at f /\
     Flat.last_login_at f2 = Flat.last_login_at f) /\
  (forall other, other <> flat_id ->
     flats db1 !! other = flats db !! other /\
     flats db2 !! other = flats db !! other) /\
  (flat_requests db1 = flat_requests db /\ setup_codes db1 = setup_codes db /\
   admin_audit db1 = admin_audit db /\
   flat_requests_seq db1 = flat_requests_seq db /\
   setup_codes_seq db1 = setup_codes_seq db) /\
  (flat_requests db2 = flat_requests db /\ setup_codes db2 = setup_codes db /\
   admin_audit db2 = admin_audit db /\
   flat_requests_seq db2 = flat_requests_seq db /\
   setup_codes_seq db2 = setup_codes_seq db).
Proof.
  intros Hf db1 db2. subst db1 db2.
  unfold adminRevokeBan, adminDisableFlat, select_flat. rewrite Hf. cbn [snd].
  split; [|split; [|split; [|split]]].
  - rewrite update_flat_lookup, decide_True, Hf by done. simpl.
    eexists; split; [reflexivity|]. simpl. tauto.
  - rewrite update_flat_lookup, decide_True, Hf by done. simpl.
    eexists; split; [reflexivity|]. simpl. tauto.
  - intros other Hne. split; rewrite update_flat_lookup; by rewrite decide_False.
  - by repeat split.
  - by repeat split.
Qed.

Lemma revokeBan_disableFlat_frame_witness :
  exists f1, flats (adminRevokeBan db_B12 "B12" 300).2 !! "B12"%string = Some f1 /\
    Flat.ban_until f1 = None /\ Flat.requires_admin_revoke f1 = false /\
    Flat.strike_count f1 = 3 /\ Flat.status f1 = DISABLED.
Proof.
  destruct (revokeBan_disableFlat_frame db_B12 "B12" true 300
              (Flat.mk DISABLED (Some "pin"%string) None 3 (Some 999) true 50 60 None)
              eq_refl) as [[f1 H1] _].
  exists f1. simpl in H1. tauto.
Defined.

(** ** The code generator *)

(** [Math.floor(x * n)] of a double [x] in [0, 1) and an integer [n >= 1]
    is an index below [n]: rounding the product never reaches [n]. *)
Lemma double_mul_floor_bound (m n : Z) :
  0 <= m < 2 ^ 53 -> 1 <= n -> 0 <= Math_floor (double_mul m n) < n.
Proof.
  intros Hm Hn. unfold Math_floor, double_mul.
  set (p := m * n).
  assert (Hp : 0 <= p <= n * 2 ^ 53 - n) by (unfold p; nia).
  destruct (Z.ltb_spec p (2 ^ 53)) as [Hlt|Hge].
  { rewrite Z.div_small; lia. }
  cbv zeta.
  set (L := Z.log2 p).
  assert (HL : 2 ^ L <= p < 2 ^ Z.succ L) by (apply Z.log2_spec; lia).
  assert (HL53 : 53 <= L).
  { unfold L. rewrite <- (Z.log2_pow2 53) by lia. apply Z.log2_le_mono. lia. }
  set (s := L - 52).
  set (h := 2 ^ (s - 1)).
  assert (Hh : 0 < h) by (apply Z.pow_pos_nonneg; lia).
  assert (Hs : 2 ^ s = 2 * h).
  { unfold h. replace s with (Z.succ (s - 1)) at 1 by lia.
    rewrite Z.pow_succ_r; lia. }
  assert (HLh : 2 ^ L = h * 2 ^ 53).
  { unfold h. rewrite <- Z.pow_add_r by lia. f_equal. lia. }
  assert (Hhn : h < n) by nia.
  set (q := p / 2 ^ s). set (r := p mod 2 ^ s).
  assert (Hdm : p = 2 ^ s * q + r) by (apply Z.div_mod; lia).
  assert (Hr : 0 <= r < 2 ^ s) by (apply Z.mod_pos_bound; lia).
  assert (Hq : 0 <= q) by (apply Z.div_pos; lia).
  set (q' := if (h <? r) || ((r =? h) && Z.odd q) then q + 1 else q).
  assert (Hq' : 0 <= q' * 2 ^ s < n * 2 ^ 53).
  { rewrite Hs in *. unfold q'.
    destruct (Z.ltb_spec h r); simpl; [nia|].
    destruct (Z.eqb_spec r h); simpl; [|nia].
    destruct (Z.odd q); nia. }
  split.
  - apply Z.div_pos; lia.
  - apply Z.div_lt_upper_bound; lia.
Qed.

Lemma advance_advance_1 (n : nat) (g : Rng) :
  advance 1 (advance n g) = advance (S n) g.
Proof.
  unfold advance. simpl. f_equal.
  rewrite <- app_assoc. f_equal. symmetry. apply repeat_cons.
Qed.

(** One draw: a character of the alphabet, and one call of [Math.random]. *)
Lemma random_char_spec (P : ascii -> bool) (alphabet : string) (g : Rng) :
  (forall k, (k < String.length alphabet)%nat ->
     exists c, String.get k alphabet = Some c /\ P c = true) ->
  (1 <= String.length alphabet)%nat ->
  exists c, random_char alphabet g = (String c EmptyString, advance 1 g) /\ P c = true.
Proof.
  intros Hall Hlen. unfold random_char, Math_random, char_at.
  set (m := rng_outputs g (rng_pos g) mod 2 ^ 53).
  assert (Hm : 0 <= m < 2 ^ 53) by (apply Z.mod_pos_bound; lia).
  pose proof (double_mul_floor_bound m (Z.of_nat (String.length alphabet)) Hm
                ltac:(lia)) as Hi.
  destruct (Hall (Z.to_nat (Math_floor (double_mul m (Z.of_nat (String.length alphabet))))))
    as (c & Hc & HP); [lia|].
  rewrite Hc. by exists c.
Qed.

Lemma random_chars_4_spec (P : ascii -> bool) (alphabet : string) (g : Rng) :
  (forall k, (k < String.length alphabet)%nat ->
     exists c, String.get k alphabet = Some c /\ P c = true) ->
  (1 <= String.length alphabet)%nat ->
  exists a b c d,
    random_chars 4 alphabet g
      = (String a (String b (String c (String d EmptyString))), advance 4 g) /\
    P a = true /\ P b = true /\ P c = true /\ P d = true.
Proof.
  intros Hall Hlen.
  destruct (random_char_spec P alphabet g Hall Hlen) as (a & Ea & Ha).
  destruct (random_char_spec P alphabet (advance 1 g) Hall Hlen) as (b & Eb & Hb).
  destruct (random_char_spec P alphabet (advance 2 g) Hall Hlen) as (c & Ec & Hc).
  destruct (random_char_spec P alphabet (advance 3 g) Hall Hlen) as (d & Ed & Hd).
  rewrite advance_advance_1 in Eb, Ec, Ed.
  exists a, b, c, d. repeat split; try done.
  cbn [random_chars]. rewrite Ea, Eb, Ec, Ed. reflexivity.
Qed.

Lemma letters_are_code_letters (k : nat) :
  (k < String.length letters)%nat ->
  exists c, String.get k letters = Some c /\ is_code_letter c = true.
Proof.
  intros Hk.
  do 24 (destruct k as [|k]; [eexists; split; reflexivity|]).
  simpl in Hk. lia.
Qed.

Lemma digits_are_code_digits (k : nat) :
  (k < String.length digits)%nat ->
  exists c, String.get k digits = Some c /\ is_code_digit c = true.
Proof.
  intros Hk.
  do 8 (destruct k as [|k]; [eexists; split; reflexivity|]).
  simpl in Hk. lia.
Qed.

Lemma advance_advance_4 (g : Rng) : advance 4 (advance 4 g) = advance 8 g.
Proof. unfold advance. simpl. by rewrite <- app_assoc. Qed.

(** [generateHumanCode(9)]: four code letters, a hyphen, four code digits,
    after eight calls of [Math.random]. *)
Lemma generateHumanCode_9_spec (g : Rng) :
  matches_code_pattern (generateHumanCode 9 g).1 = true /\
  String.length (generateHumanCode 9 g).1 = 9%nat /\
  (generateHumanCode 9 g).2 = advance 8 g.
Proof.
  unfold generateHumanCode.
  destruct (random_chars_4_spec is_code_letter letters g letters_are_code_letters
              ltac:(simpl; lia)) as (a & b & c & d & E1 & Ha & Hb & Hc & Hd).
  destruct (random_chars_4_spec is_code_digit digits (advance 4 g) digits_are_code_digits
              ltac:(simpl; lia)) as (w & x & y & z & E2 & Hw & Hx & Hy & Hz).
  rewrite E1, E2, advance_advance_4.
  cbv [fst snd String.append String.substring matches_code_pattern String.length Nat.add].
  rewrite Ha, Hb, Hc, Hd, Hw, Hx, Hy, Hz. done.
Qed.

Lemma sources_consulted_advance (n : nat) (g : Rng) :
  sources_consulted g (advance n g) = repeat MathRandom n.
Proof. unfold sources_consulted, advance. simpl. by rewrite drop_app_length. Qed.

(** ** Setup codes *)





(** What [adminGenerateSetupCode] does for a flat that exists, when a
    [BIGINT] holds the expiry as it is sent. *)
Lemma adminGenerateSetupCode_found
    (bcrypt_hash : string -> Z -> string -> string) (db : DB) (flat_id : string)
    (ttlMinutes now : Z) (g : Rng) (salt : string) (f : Flat.t) (e : Z) :
  flats db !! flat_id = Some f ->
  js_add now (js_mul ttlMinutes 60000) = Finite e ->
  in_bigint (printed e) = true ->
  adminGenerateSetupCode bcrypt_hash db flat_id ttlMinutes now g salt =
  (Ok (mkIssued flat_id (generateHumanCode 9 g).1 e),
   update_flat flat_id (Flat.clear_pin now)
     (insert_setup_code flat_id (bcrypt_hash (generateHumanCode 9 g).1 10 salt)
        (printed e) now db),
   (generateHumanCode 9 g).2).
Proof.
  intros Hf He Hin. unfold adminGenerateSetupCode, select_flat. rewrite Hf.
  destruct (generateHumanCode 9 g). by rewrite He, Hin.
Qed.


(** A successful call found the flat and an expiry a [BIGINT] holds. *)
Lemma adminGenerateSetupCode_ok_found
    (bcrypt_hash : string -> Z -> string -> string) (db : DB) (flat_id : string)
    (ttlMinutes now : Z) (g : Rng) (salt : string)
    (issued : IssuedCode) (db' : DB) (g' : Rng) :
  adminGenerateSetupCode bcrypt_hash db flat_id ttlMinutes now g salt
    = (Ok issued, db', g') ->
  exists f e, flats db !! flat_id = Some f /\
    js_add now (js_mul ttlMinutes 60000) = Finite e /\ in_bigint (printed e) = true.
Proof.
  unfold adminGenerateSetupCode, select_flat.
  destruct (flats db !! flat_id) as [f|].
  - destruct (generateHumanCode 9 g).
    destruct (js_add now (js_mul ttlMinutes 60000)) as [e|]; [|discriminate].
    destruct (in_bigint (printed e)) eqn:Hin; [by exists f, e|discriminate].
  - destruct (has_NUL flat_id); discriminate.
Qed.

Lemma expiry_one_hour : js_add 1000 (js_mul 60 60000) = Finite 3601000.
Proof. reflexivity. Qed.

(** C3, counterexample: the code issued for flat B12 is drawn with
    [Math.random], which is not a cryptographically secure source. *)
Lemma codes_are_securely_drawn_fails : ~ codes_are_securely_drawn.
Proof.
  intros H.
  pose proof (adminGenerateSetupCode_found (fun code _ _ => code) db_B12 "B12" 60 1000
                rng0 EmptyString _ _ eq_refl expiry_one_hour eq_refl) as Hcall.
  apply H in Hcall as [_ Hsecure].
  destruct (generateHumanCode_9_spec rng0) as (_ & _ & Hg).
  rewrite Hg, sources_consulted_advance in Hsecure. discriminate Hsecure.
Qed.

(** C3, amended: every setup code issued is nine characters long, four
    letters other than I and O, a hyphen and four digits other than 0 and
    1, and its eight characters are drawn by eight calls of [Math.random],
    which is not a cryptographically secure source. *)
Theorem setup_code_pattern_and_source
    (bcrypt_hash : string -> Z -> string -> string) (db : DB) (flat_id : string)
    (ttlMinutes now : Z) (g : Rng) (salt : string)
    (issued : IssuedCode) (db' : DB) (g' : Rng) :
  adminGenerateSetupCode bcrypt_hash db flat_id ttlMinutes now g salt
    = (Ok issued, db', g') ->
  matches_code_pattern (issued_code issued) = true /\
  String.length (issued_code issued) = 9%nat /\
  sources_consulted g g' = repeat MathRandom 8 /\
  forallb cryptographically_secure (sources_consulted g g') = false.
Proof.
  intros Hcall.
  destruct (adminGenerateSetupCode_ok_found _ _ _ _ _ _ _ _ _ _ Hcall)
    as (f & e & Hf & He & Hin).
  rewrite (adminGenerateSetupCode_found _ _ _ _ _ _ _ _ _ Hf He Hin) in Hcall.
  destruct (generateHumanCode_9_spec g) as (Hpat & Hlen & Hg).
  remember (generateHumanCode 9 g) as cg eqn:Ecg. clear Ecg.
  injection Hcall as <- <- <-. cbn [issued_code].
  rewrite Hg, sources_consulted_advance. done.
Qed.

Lemma setup_code_pattern_and_source_witness :
  exists issued db' g',
    adminGenerateSetupCode (fun code _ _ => code) db_B12 "B12" 60 1000 rng0 EmptyString
      = (Ok issued, db', g') /\
    matches_code_pattern (issued_code issued) = true /\
    String.length (issued_code issued) = 9%nat /\
    sources_consulted rng0 g' = repeat MathRandom 8 /\
    forallb cryptographically_secure (sources_consulted rng0 g') = false.
Proof.
  pose proof (adminGenerateSetupCode_found (fun code _ _ => code) db_B12 "B12" 60 1000
                rng0 EmptyString _ _ eq_refl expiry_one_hour eq_refl) as Hcall.
  do 3 eexists. split; [exact Hcall|].
  exact (setup_code_pattern_and_source _ _ _ _ _ _ _ _ _ _ Hcall).
Defined.





(** ** The WebSocket channel *)

Section MonitoringProperties.

Context {Host : Type}.

Implicit Types (sv : Server) (ev : Event Host) (fx : Effect Host).

(** Effects that carry no WebSocket data to socket [s]. *)
Ltac quiet :=
  simpl; repeat (apply Forall_cons_2; [simpl; tauto|]); apply Forall_nil_2.

Lemma set_add_elem (ws x : nat) (l : list nat) :
  x ∈ set_add ws l <-> x = ws \/ x ∈ l.
Proof.
  unfold set_add. case_decide as Hin.
  - split; [by right|]. intros [->|]; done.
  - rewrite elem_of_app, list_elem_of_singleton. tauto.
Qed.

Lemma set_delete_elem (ws x : nat) (l : list nat) :
  x ∈ set_delete ws l <-> x <> ws /\ x ∈ l.
Proof.
  unfold set_delete. rewrite !list_elem_of_In, filter_In.
  destruct (Nat.eqb_spec x ws) as [Heq|Hne]; simpl.
  - split; [intros [_ ?]; discriminate|tauto].
  - tauto.
Qed.

Lemma broadcast_targets (snap : Snapshot Host) sv fx :
  In fx (broadcast snap sv) -> exists ws, fx = WsSend ws snap /\ ws ∈ wsClients sv.
Proof.
  unfold broadcast. rewrite in_map_iff. intros (ws & <- & Hin).
  apply filter_In in Hin as [Hin _]. exists ws. by rewrite list_elem_of_In.
Qed.

Lemma wsClients_buildSnapshot (now : Z) (h : Host) sv :
  wsClients (buildSnapshot now h sv).2 = wsClients sv.
Proof. reflexivity. Qed.

(** One event keeps a socket that is not a subscriber out, unless the event
    is an authenticated upgrade of that socket. *)
Lemma step_keeps_out (s : nat) ev sv :
  s ∉ wsClients sv ->
  ~ authenticated_upgrade s ev ->
  Forall (fun fx => ~ websocket_traffic s fx) (step ev sv).1 /\
  s ∉ wsClients (step ev sv).2.
Proof.
  intros Hout Hev. destruct ev as [req s' now h|now h|now ip| |ws|ws]; simpl in *.
  - unfold on_upgrade.
    destruct (negb _); [split; [quiet|done]|].
    destruct (session_isAdmin (req_session req)) eqn:Hadm; simpl;
      [|split; [quiet|done]].
    assert (Hne : s' <> s) by tauto.
    destruct (req_handshake_ok req); [|split; [quiet|done]].
    simpl. split.
    + repeat (apply Forall_cons_2; [simpl; congruence|]). apply Forall_nil_2.
    + rewrite set_add_elem. intros [->|]; done.
  - unfold on_tick. destruct (0 <? _); [|split; [quiet|done]].
    simpl. split; [|done].
    apply Forall_forall. intros fx Hin. apply list_elem_of_In in Hin.
    apply broadcast_targets in Hin as (ws & -> & Hws). simpl in *.
    intros ->. done.
  - split; [quiet|done].
  - split; [quiet|done].
  - split; [quiet|done].
  - split; [quiet|]. rewrite set_delete_elem. tauto.
Qed.

Lemma run_keeps_out (s : nat) (evs : list (Event Host)) sv :
  s ∉ wsClients sv ->
  Forall (fun ev => ~ authenticated_upgrade s ev) evs ->
  Forall (fun fx => ~ websocket_traffic s fx) (run evs sv).1 /\
  s ∉ wsClients (run evs sv).2.
Proof.
  intros Hout Hevs. revert sv Hout.
  induction Hevs as [|ev evs Hev _ IH]; intros sv Hout; simpl.
  - by split; [constructor|].
  - destruct (step_keeps_out s ev sv Hout Hev) as [Hfx Hout1].
    destruct (step ev sv) as [fx sv1]. simpl in *.
    destruct (IH sv1 Hout1) as [Hfx' Hout2].
    destruct (run evs sv1) as [fx' sv2]. simpl in *.
    split; [by apply Forall_app|done].
Qed.

(** C6: an upgrade to [/admin/ws] without an admin session is answered by
    the 401 line followed by the destruction of the socket and by nothing
    else, and leaves the server as it was; and over any sequence of events
    in which a socket makes no authenticated upgrade, that socket is never
    sent the completed handshake or a snapshot and is never a subscriber. *)
Theorem unauthenticated_upgrade_is_rejected
    (req : UpgradeRequest) (s : nat) (now : Z) (h : Host) (sv : Server)
    (u : string) (evs : list (Event Host)) :
  req_url req = Some u -> startsWith "/admin/ws" u = true ->
  session_isAdmin (req_session req) = false ->
  s ∉ wsClients sv ->
  Forall (fun ev => ~ authenticated_upgrade s ev) evs ->
  step (EvUpgrade req s now h) sv
    = ([SocketWrite s unauthorized_line; SocketDestroy s], sv) /\
  Forall (fun fx => ~ websocket_traffic s fx)
         (run (EvUpgrade req s now h :: evs) sv).1 /\
  s ∉ wsClients (run (EvUpgrade req s now h :: evs) sv).2.
Proof.
  intros Hurl Hpre Hadm Hout Hevs.
  assert (Hstep : step (EvUpgrade req s now h) sv
                  = ([SocketWrite s unauthorized_line; SocketDestroy s], sv)).
  { simpl. unfold on_upgrade. by rewrite Hurl, Hpre, Hadm. }
  split; [exact Hstep|].
  apply run_keeps_out; [done|].
  constructor; [|done]. simpl. rewrite Hadm. intros [_ ?]. discriminate.
Qed.

End MonitoringProperties.

Lemma unauthenticated_upgrade_is_rejected_witness :
  let req := mkUpgrade (Some "/admin/ws?x=1"%string) (Some (mkSession None)) true in
  let admin := mkUpgrade (Some "/admin/ws"%string) (Some (mkSession (Some true))) true in
  let sv := mkServer (mkMetrics 0 0 0 ∅ []) [] (fun _ => CONNECTING) in
  let evs := [EvUpgrade admin 7%nat 20 tt; EvTick 30 tt; EvUpgrade req 5%nat 40 tt] in
  step (EvUpgrade req 5%nat 10 tt) sv
    = ([SocketWrite 5%nat unauthorized_line; SocketDestroy 5%nat], sv) /\
  Forall (fun fx => ~ websocket_traffic 5%nat fx)
         (run (EvUpgrade req 5%nat 10 tt :: evs) sv).1 /\
  5%nat ∉ wsClients (run (EvUpgrade req 5%nat 10 tt :: evs) sv).2.
Proof.
  intros req admin sv evs.
  apply (unauthenticated_upgrade_is_rejected req 5%nat 10 tt sv "/admin/ws?x=1" evs).
  - reflexivity.
  - reflexivity.
  - reflexivity.
  - apply not_elem_of_nil.
  - repeat (apply Forall_cons_2;
              [simpl; first [tauto | intros [? ?]; discriminate]|]).
    apply Forall_nil_2.
Defined.

(** ** The snapshot proxy *)

Lemma substring_0_length (n : nat) (s : string) :
  (String.length (String.substring 0 n s) <= n)%nat.
Proof.
  revert s. induction n as [|n IH]; intros [|c s]; simpl; try lia.
  specialize (IH s). lia.
Qed.

Lemma substring_0_prefix (n : nat) (s : string) :
  String.prefix (String.substring 0 n s) s = true.
Proof.
  revert s. induction n as [|n IH]; intros [|c s]; simpl; try done.
  destruct (ascii_dec c c); [apply IH|done].
Qed.

(** C7, counterexample: a 200 response of type [text/plain] that names
    [application/json] in a parameter is parsed and its payload returned. *)
Lemma proxy_goes_by_declared_type_fails : ~ proxy_goes_by_declared_type.
Proof.
  intros H.
  destruct (H Z (Z.eqb 0) decimal parse_sample res_mislabelled) as (Hbad & _).
  specialize (Hbad eq_refl). vm_compute in Hbad. discriminate Hbad.
Qed.

Section SnapshotProxyProperties.

Context {JSNumber : Type}.
Context (number_is_zero : JSNumber -> bool) (Number_toString : JSNumber -> string).
Context (JSON_parse : string -> option (JSON JSNumber)).

(** C7, amended: the proxy goes by whether the content type, in lower
    case, contains [application/json] anywhere. If it does not, the call
    fails with BAD_SNAPSHOT_RESPONSE, the status and the first 120
    characters at most of the body, which is read as text and never
    parsed. If it does and the body parses, then with a status that is no
    success or a payload with [ok: false] the call fails with the [error]
    of the payload converted to a string when that value is truthy (a
    string that is not empty is the message as it stands; a value that has
    no conversion gives a [TypeError]) and with SNAPSHOT_HTTP_ and the
    status when it is absent or falsy, the empty string included; and
    otherwise the call returns the payload as parsed. *)
Theorem fetchUserLiveSnapshot_outcomes (res : Response) :
  (content_type_includes_json res = false ->
     let text := String_or_empty (res_body res) in
     fetchUserLiveSnapshot number_is_zero Number_toString JSON_parse res =
       (Throw (String.append "BAD_SNAPSHOT_RESPONSE ("
                 (String.append (decimal (res_status res))
                    (String.append ") " (slice0 120 text)))),
        [ReadAsText]) /\
     (String.length (slice0 120 text) <= 120)%nat /\
     String.prefix (slice0 120 text) text = true /\
     ~ In ReadAsJSON (fetchUserLiveSnapshot number_is_zero Number_toString JSON_parse res).2) /\
  (forall body data,
     content_type_includes_json res = true ->
     res_body res = Some body -> JSON_parse body = Some data ->
     res_ok res = false \/ get "ok" data = Some (JBool false) ->
     (forall e, get "error" data = Some e -> truthy number_is_zero (Some e) = true ->
        fetchUserLiveSnapshot number_is_zero Number_toString JSON_parse res =
          (match ToString Number_toString e with
           | Some message => Throw message
           | None => ThrowTypeError
           end, [ReadAsJSON])) /\
     (forall msg c, get "error" data = Some (JStr (String c msg)) ->
        fetchUserLiveSnapshot number_is_zero Number_toString JSON_parse res =
          (Throw (String c msg), [ReadAsJSON])) /\
     (truthy number_is_zero (get "error" data) = false ->
        fetchUserLiveSnapshot number_is_zero Number_toString JSON_parse res =
          (Throw (SNAPSHOT_HTTP (res_status res)), [ReadAsJSON]))) /\
  (forall body data,
     content_type_includes_json res = true ->
     res_body res = Some body -> JSON_parse body = Some data ->
     res_ok res = true -> get "ok" data <> Some (JBool false) ->
     fetchUserLiveSnapshot number_is_zero Number_toString JSON_parse res
       = (Return data, [ReadAsJSON])).
Proof.
  unfold content_type_includes_json, String_or_empty, fetchUserLiveSnapshot.
  split; [|split].
  - intros Hct. cbv zeta. rewrite Hct. simpl.
    split; [reflexivity|]. split; [apply substring_0_length|].
    split; [apply substring_0_prefix|]. intros [?|[]]. discriminate.
  - intros body data Hct Hbody Hparse Hfail.
    rewrite Hct, Hbody, Hparse. cbn [negb].
    assert (Hcond : negb (res_ok res) ||
                    match get "ok" data with
                    | Some (JBool false) => true
                    | _ => false
                    end = true).
    { destruct Hfail as [->| ->]; [done|]. by rewrite orb_true_r. }
    rewrite Hcond. split; [|split].
    + intros e He Ht. by rewrite He, Ht.
    + intros msg c He. by rewrite He.
    + intros Ht. destruct (get "error" data) as [e|]; [|done]. by rewrite Ht.
  - intros body data Hct Hbody Hparse Hok Hnok.
    rewrite Hct, Hbody, Hparse, Hok. cbn [negb orb].
    destruct (get "ok" data) as [[| [|] | | | |]|]; done.
Qed.

End SnapshotProxyProperties.

Lemma fetchUserLiveSnapshot_outcomes_witness :
  fetchUserLiveSnapshot (Z.eqb 0) decimal parse_sample res_down
    = (Throw "USER_DOWN", [ReadAsJSON]).
Proof.
  refine (proj1 (proj2
    (proj1 (proj2 (fetchUserLiveSnapshot_outcomes (Z.eqb 0) decimal parse_sample res_down))
       body_down payload_down eq_refl eq_refl eq_refl (or_introl eq_refl)))
    "SER_DOWN"%string "U"%char eq_refl).
Defined.

(** ** The request-rate window *)

Lemma shift_while_older_Forall (P : Z -> Prop) (c : Z) (ts : list Z) :
  Forall P ts -> Forall P (shift_while_older c ts).
Proof.
  induction 1 as [|t ts Ht Hts IH]; simpl; [constructor|].
  destruct (t <? c); [exact IH|by constructor].
Qed.

Lemma shift_while_older_sorted (c : Z) (ts : list Z) :
  StronglySorted Z.le ts -> StronglySorted Z.le (shift_while_older c ts).
Proof.
  induction 1 as [|t ts Hs IH Ht]; simpl; [constructor|].
  destruct (t <? c); [exact IH|by constructor].
Qed.

Lemma filter_all {A : Type} (f : A -> bool) (l : list A) :
  Forall (fun x => f x = true) l -> List.filter f l = l.
Proof. induction 1 as [|x l Hx _ IH]; simpl; [done|]. by rewrite Hx, IH. Qed.

(** On a window in chronological order, shifting from the front drops
    exactly the entries older than the cutoff. *)
Lemma shift_while_older_filter (c : Z) (ts : list Z) :
  StronglySorted Z.le ts ->
  shift_while_older c ts = List.filter (fun t => c <=? t) ts.
Proof.
  induction 1 as [|t ts Hs IH Ht]; simpl; [done|].
  destruct (Z.ltb_spec t c) as [Hlt|Hge].
  - destruct (Z.leb_spec c t); [lia|exact IH].
  - destruct (Z.leb_spec c t); [|lia]. f_equal. symmetry.
    apply filter_all. eapply Forall_impl; [exact Ht|].
    intros x Hx. simpl in Hx. apply Z.leb_le. lia.
Qed.

Lemma shift_while_older_all (c : Z) (ts : list Z) :
  Forall (fun t => t < c) ts -> shift_while_older c ts = [].
Proof.
  induction 1 as [|t ts Ht _ IH]; simpl; [done|].
  destruct (Z.ltb_spec t c); [exact IH|lia].
Qed.

Lemma shift_while_older_In (c t : Z) (ts : list Z) :
  In t ts -> c <= t -> In t (shift_while_older c ts).
Proof.
  intros Hin Hc. induction ts as [|t0 ts IH]; simpl in *; [done|].
  destruct (Z.ltb_spec t0 c) as [Hlt|Hge]; [|exact Hin].
  destruct Hin as [->|Hin]; [lia|by apply IH].
Qed.

Lemma sorted_snoc (ts : list Z) (t : Z) :
  StronglySorted Z.le ts -> Forall (fun x => x <= t) ts ->
  StronglySorted Z.le (ts ++ [t]).
Proof.
  induction 1 as [|x ts Hs IH Hx]; intros Hb; simpl.
  - repeat constructor.
  - apply Forall_cons_iff in Hb as [Hxt Hb].
    constructor; [by apply IH|].
    apply Forall_app. split; [exact Hx|by repeat constructor].
Qed.

(** Every entry of the window is the time of an operation made so far. *)
Lemma apply_op_bound (T : Z) (op : WindowOp) (m : Metrics) :
  Forall (fun t => t <= T) (requestTimestamps m) -> op_time op <= T ->
  Forall (fun t => t <= T) (requestTimestamps (apply_op m op)).
Proof.
  intros Hb Hop. destruct op as [now ip|now]; simpl in *;
    apply shift_while_older_Forall; [|done].
  apply Forall_app. split; [done|by repeat constructor].
Qed.

Lemma apply_ops_bound (T : Z) (ops : list WindowOp) (m : Metrics) :
  Forall (fun t => t <= T) (requestTimestamps m) ->
  Forall (fun op => op_time op <= T) ops ->
  Forall (fun t => t <= T) (requestTimestamps (apply_ops ops m)).
Proof.
  intros Hb Hops. revert m Hb.
  induction Hops as [|op ops Hop _ IH]; intros m Hb; simpl; [done|].
  apply IH. by apply apply_op_bound.
Qed.

(** The window stays in chronological order as long as the clock does. *)
Lemma apply_ops_sorted (ops : list WindowOp) (m : Metrics) (t0 : Z) :
  StronglySorted Z.le (requestTimestamps m) ->
  Forall (fun t => t <= t0) (requestTimestamps m) ->
  Forall (fun op => t0 <= op_time op) ops ->
  chronological ops ->
  StronglySorted Z.le (requestTimestamps (apply_ops ops m)).
Proof.
  revert m t0. induction ops as [|op ops IH]; intros m t0 Hs Hb Hge Hch; simpl; [done|].
  apply Forall_cons_iff in Hge as [Hop Hge]. destruct Hch as [Hnext Hch].
  assert (Hb' : Forall (fun t => t <= op_time op) (requestTimestamps m)).
  { eapply Forall_impl; [exact Hb|]. simpl. intros; lia. }
  apply (IH _ (op_time op)); [|by apply apply_op_bound|done|done].
  destruct op as [now ip|now]; simpl in *; apply shift_while_older_sorted; [|done].
  by apply sorted_snoc.
Qed.

(** Over HTTP the read is itself a request: the middleware counts it before
    the handler runs, so the rate [GET /admin/api/metrics] reports is at
    least 1 when the handler runs within a minute of the count. *)
Lemma get_metrics_counts_itself (t_in t_out : Z) (ip : string) (m : Metrics) :
  t_in <= t_out <= t_in + 60000 ->
  1 <= report_rpm (get_metrics t_in t_out ip m).1.
Proof.
  intros Ht. unfold get_metrics, metrics_handler, count_request, pruneOldRequests.
  simpl.
  assert (Hin : In t_in (shift_while_older (t_out - 60000)
                  (shift_while_older (t_in - 60000) (requestTimestamps m ++ [t_in])))).
  { apply shift_while_older_In; [|lia]. apply shift_while_older_In; [|lia].
    apply in_or_app. right. by left. }
  destruct (shift_while_older (t_out - 60000) _); [destruct Hin|simpl; lia].
Qed.

Lemma get_metrics_counts_itself_witness :
  1 <= report_rpm
         (get_metrics 120000 120003 "10.0.0.9" (apply_ops ops_one_minute metrics0)).1.
Proof. apply get_metrics_counts_itself. lia. Defined.

(** When the window holds old entries only, the request that reads it is
    the one entry left. *)
Lemma get_metrics_alone (t_in t_out : Z) (ip : string) (m : Metrics) :
  Forall (fun t => t < t_in - 60000) (requestTimestamps m) ->
  t_in <= t_out <= t_in + 60000 ->
  report_rpm (get_metrics t_in t_out ip m).1 = 1.
Proof.
  intros Hold Ht. unfold get_metrics, metrics_handler, count_request, pruneOldRequests.
  simpl.
  assert (Hshift : forall ts, Forall (fun t => t < t_in - 60000) ts ->
            shift_while_older (t_in - 60000) (ts ++ [t_in]) = [t_in]).
  { induction 1 as [|t ts Hlt _ IH]; simpl.
    - destruct (Z.ltb_spec t_in (t_in - 60000)); [lia|done].
    - destruct (Z.ltb_spec t (t_in - 60000)); [exact IH|lia]. }
  rewrite (Hshift _ Hold). simpl.
  destruct (Z.ltb_spec t_in (t_out - 60000)); [lia|done].
Qed.

(** C8, counterexample: after the three requests of one minute, the
    request to [GET /admin/api/metrics] made at 120000 is counted before it
    is answered, and the rate it reads is not 0. *)
Lemma late_read_reports_no_request_fails : ~ late_read_reports_no_request.
Proof.
  intros H.
  destruct (H ops_one_minute metrics0 120000 120000 "10.0.0.9"%string []
              (fun _ => CLOSED) eq_refl) as (_ & Hzero & _).
  - simpl. repeat split; repeat constructor; simpl; lia.
  - repeat constructor; simpl; lia.
  - lia.
  - pose proof (get_metrics_counts_itself 120000 120000 "10.0.0.9"
                  (apply_ops ops_one_minute metrics0) ltac:(lia)) as Hone.
    rewrite Hzero in Hone. lia.
Qed.

(** C8, amended: on a window filled by requests and reads made in
    chronological order, pruning at time [now] keeps exactly the entries
    that are not older than [now - 60000]; a counted request, the metrics
    handler and [buildSnapshot] all prune; and when every operation lies 61
    seconds or more before [now], [buildSnapshot] run at [now] reports a
    rate of 0, while a request to [GET /admin/api/metrics] made at [now]
    and answered within a minute reports a rate of 1, the request itself,
    which the middleware counts before the handler reads the window. *)
Theorem window_pruning_and_rpm {Host : Type}
    (ops : list WindowOp) (m0 : Metrics) (now : Z) (ip : string) (h : Host)
    (clients : list nat) (rs : nat -> ReadyState) :
  requestTimestamps m0 = [] ->
  chronological ops ->
  Forall (fun op => op_time op <= now) ops ->
  let m := apply_ops ops m0 in
  requestTimestamps (pruneOldRequests now m)
    = List.filter (fun t => now - 60000 <=? t) (requestTimestamps m) /\
  requestTimestamps (count_request now ip m)
    = List.filter (fun t => now - 60000 <=? t) (requestTimestamps m ++ [now]) /\
  (metrics_handler now m).2 = pruneOldRequests now m /\
  metrics (buildSnapshot now h (mkServer m clients rs)).2 = pruneOldRequests now m /\
  (Forall (fun op => op_time op + 61000 <= now) ops ->
     rpm (buildSnapshot now h (mkServer m clients rs)).1 = 0 /\
     forall t_out, now <= t_out <= now + 60000 ->
       report_rpm (get_metrics now t_out ip m).1 = 1).
Proof.
  intros Hempty Hch Hnow m.
  assert (Hsorted : StronglySorted Z.le (requestTimestamps m)).
  { subst m. destruct ops as [|op ops].
    - simpl. rewrite Hempty. constructor.
    - destruct Hch as [Hnext Hch].
      apply (apply_ops_sorted _ _ (op_time op)).
      + rewrite Hempty. constructor.
      + rewrite Hempty. apply Forall_nil_2.
      + apply Forall_cons_2; [lia|exact Hnext].
      + by split. }
  assert (Hbound : Forall (fun t => t <= now) (requestTimestamps m)).
  { apply apply_ops_bound; [rewrite Hempty; apply Forall_nil_2|done]. }
  split; [|split; [|split; [|split]]].
  - by apply shift_while_older_filter.
  - apply shift_while_older_filter. by apply sorted_snoc.
  - reflexivity.
  - reflexivity.
  - intros Hold.
    assert (Hb : Forall (fun t => t < now - 60000) (requestTimestamps m)).
    { assert (Hb : Forall (fun t => t <= now - 61000) (requestTimestamps m)).
      { apply apply_ops_bound; [rewrite Hempty; apply Forall_nil_2|].
        eapply Forall_impl; [exact Hold|]. simpl. intros; lia. }
      eapply Forall_impl; [exact Hb|]. simpl. intros; lia. }
    split.
    + simpl. by rewrite (shift_while_older_all _ _ Hb).
    + intros t_out Ht. by apply get_metrics_alone.
Qed.

Lemma window_pruning_and_rpm_witness :
  rpm (buildSnapshot 120000 tt
         (mkServer (apply_ops ops_one_minute metrics0) [] (fun _ => CLOSED))).1 = 0 /\
  forall t_out, 120000 <= t_out <= 120000 + 60000 ->
    report_rpm (get_metrics 120000 t_out "10.0.0.9"
                  (apply_ops ops_one_minute metrics0)).1 = 1.
Proof.
  refine (proj2 (proj2 (proj2 (proj2
    (window_pruning_and_rpm ops_one_minute metrics0 120000 "10.0.0.9" tt []
       (fun _ => CLOSED) eq_refl _ _)))) _).
  - simpl. repeat split; repeat constructor; simpl; lia.
  - repeat constructor; simpl; lia.
  - repeat constructor; simpl; lia.
Defined.

(** ** Normalisation of [flat_id] *)

































Section RouteProperties.

Context (bcrypt_hash : string -> Z -> string -> string).


End RouteProperties.


(** * Further properties *)

(** ** The manager *)

(** A request filed with texts the server accepts, in a store whose
    sequence is ahead of its ids, gets the next id and is PENDING, created
    and updated now; the sequence advances by one, every other request is
    as it was, and no flat or setup code is touched. *)
Theorem createFlatRequest_files_pending (db : DB) (flat_id name note : string) (now : Z) :
  has_NUL flat_id = false -> has_NUL name = false -> has_NUL note = false ->
  flat_requests db !! flat_requests_seq db = None ->
  let id := flat_requests_seq db in
  let db' := (adminCreateFlatRequest db flat_id name note now).2 in
  (adminCreateFlatRequest db flat_id name note now).1 = Ok id /\
  flat_requests db' !! id = Some (FlatRequest.mk flat_id name note PENDING now now) /\
  (forall id', id' <> id -> flat_requests db' !! id' = flat_requests db !! id') /\
  flat_requests_seq db' = id + 1 /\
  flats db' = flats db /\ setup_codes db' = setup_codes db /\
  setup_codes_seq db' = setup_codes_seq db /\ admin_audit db' = admin_audit db.
Proof.
  intros Hf Hn Ho _ id db'. subst id db'.
  unfold adminCreateFlatRequest. rewrite Hf, Hn, Ho. simpl.
  split; [done|]. split; [by rewrite lookup_insert_eq|].
  split; [|done]. intros id' Hne. by rewrite lookup_insert_ne.
Qed.

Lemma createFlatRequest_files_pending_witness :
  (adminCreateFlatRequest db_B12 "C7" "Ann" "second floor" 500).1 = Ok 2 /\
  flat_requests (adminCreateFlatRequest db_B12 "C7" "Ann" "second floor" 500).2 !! 2 =
    Some (FlatRequest.mk "C7" "Ann" "second floor" PENDING 500 500).
Proof.
  destruct (createFlatRequest_files_pending db_B12 "C7" "Ann" "second floor" 500
              eq_refl eq_refl eq_refl eq_refl) as (Hid & Hrow & _).
  split; [exact Hid|exact Hrow].
Defined.



(** Rejecting an existing request sets its status to REJECTED and its
    update time to now and nothing else: its flat id, name, note and
    creation time stay, as do every other request, every flat (none is
    created or activated), the setup codes and the sequences. *)
Theorem rejectRequest_frame (db : DB) (id now : Z) (r : FlatRequest.t) :
  flat_requests db !! id = Some r ->
  let db' := (rejectRequest db id now).2 in
  (rejectRequest db id now).1 = Ok tt /\
  flat_requests db' !! id =
    Some (FlatRequest.mk (FlatRequest.flat_id r) (FlatRequest.name r) (FlatRequest.note r)
            REJECTED (FlatRequest.created_at r) now) /\
  (forall id', id' <> id -> flat_requests db' !! id' = flat_requests db !! id') /\
  flats db' = flats db /\ setup_codes db' = setup_codes db /\
  admin_audit db' = admin_audit db /\
  flat_requests_seq db' = flat_requests_seq db /\
  setup_codes_seq db' = setup_codes_seq db.
Proof.
  intros Hr db'. subst db'. unfold rejectRequest, select_flat_request. rewrite Hr.
  simpl. split; [done|]. split; [by rewrite lookup_alter_eq, Hr|].
  split; [|done]. intros id' Hne. by rewrite lookup_alter_ne.
Qed.

Lemma rejectRequest_frame_witness :
  (rejectRequest db_B12 1 300).1 = Ok tt /\
  flat_requests (rejectRequest db_B12 1 300).2 !! 1 =
    Some (FlatRequest.mk "B12" "Jane" EmptyString REJECTED 100 300) /\
  flats (rejectRequest db_B12 1 300).2 = flats db_B12.
Proof.
  destruct (rejectRequest_frame db_B12 1 300
              (FlatRequest.mk "B12" "Jane" EmptyString PENDING 100 100) eq_refl)
    as (Hout & Hrow & _ & Hflats & _).
  split; [exact Hout|]. split; [exact Hrow|exact Hflats].
Defined.

(** Disabling a flat and enabling it again leaves the store as enabling it
    alone does: the status is ACTIVE, the update time that of the second
    call, and nothing remembers the first. *)
Theorem disable_then_enable (db : DB) (flat_id : string) (t1 t2 : Z) (f : Flat.t) :
  flats db !! flat_id = Some f ->
  (adminDisableFlat (adminDisableFlat db flat_id true t1).2 flat_id false t2)
    = (adminDisableFlat db flat_id false t2) /\
  flats (adminDisableFlat db flat_id false t2).2 !! flat_id
    = Some (Flat.set_status ACTIVE t2 f).
Proof.
  intros Hf. unfold adminDisableFlat, select_flat. rewrite Hf. cbn [snd].
  rewrite !update_flat_lookup. rewrite !decide_True by done. rewrite Hf.
  cbn [fmap option_fmap option_map].
  split; [|done].
  f_equal. unfold update_flat, with_flats. cbn. f_equal.
  apply map_eq. intros k. destruct (decide (flat_id = k)) as [<-|Hne].
  - rewrite !lookup_alter_eq, Hf. done.
  - by rewrite !lookup_alter_ne.
Qed.

Lemma disable_then_enable_witness :
  flats (adminDisableFlat (adminDisableFlat db_B12 "B12" true 300).2 "B12" false 400).2
    !! "B12"%string
  = Some (Flat.mk ACTIVE (Some "pin"%string) None 3 (Some 999) true 50 400 None).
Proof.
  destruct (disable_then_enable db_B12 "B12" 300 400
              (Flat.mk DISABLED (Some "pin"%string) None 3 (Some 999) true 50 60 None)
              eq_refl) as [Heq Hflat].
  rewrite Heq. exact Hflat.
Defined.



(** ** The code generator *)

Lemma substring_0_length_min (n : nat) (s : string) :
  String.length (String.substring 0 n s) = Nat.min n (String.length s).
Proof.
  revert s. induction n as [|n IH]; intros [|c s]; simpl; try done.
  by rewrite IH.
Qed.

(** [generateHumanCode(len)] cuts the code XXXX-NNNN after [len + 1]
    characters and returns the nine of it from [len = 8] on, the default
    included; it makes eight draws whatever [len] is. *)
Theorem generateHumanCode_length (len : nat) (g : Rng) :
  String.length (generateHumanCode len g).1 = Nat.min (len + 1) 9 /\
  String.prefix (generateHumanCode len g).1 (generateHumanCode 9 g).1 = true /\
  (generateHumanCode len g).2 = advance 8 g.
Proof.
  unfold generateHumanCode.
  destruct (random_chars_4_spec is_code_letter letters g letters_are_code_letters
              ltac:(simpl; lia)) as (a & b & c & d & E1 & _).
  destruct (random_chars_4_spec is_code_digit digits (advance 4 g) digits_are_code_digits
              ltac:(simpl; lia)) as (w & x & y & z & E2 & _).
  rewrite E1, E2, advance_advance_4. cbn [fst snd].
  split; [by rewrite substring_0_length_min|]. split; [|done].
  set (code := String.append _ _).
  replace (String.substring 0 (9 + 1) code) with code by reflexivity.
  apply substring_0_prefix.
Qed.

(** ** Sessions *)

Section GuardProperties.

Context (bcrypt_hash : string -> Z -> string -> string).

(** Without an admin session every route of the admin API answers 401
    UNAUTHORIZED before it reads its parameters: no query is made, no code
    is drawn, and the store and the generator are as they were. *)
Theorem unauthenticated_requests_change_nothing (s : option Session) :
  session_isAdmin s = false ->
  (forall flat_id name note now db,
     post_requests s flat_id name note now db
       = Some (Json 401 (Err "UNAUTHORIZED"%string), db)) /\
  (forall id now db,
     post_approve s id now db = Some (Json 401 (Err "UNAUTHORIZED"%string), db)) /\
  (forall id now db,
     post_reject s id now db = Some (Json 401 (Err "UNAUTHORIZED"%string), db)) /\
  (forall flat_id ttl now g salt db,
     post_setup_code bcrypt_hash s flat_id ttl now g salt db
       = Some (Json 401 (Err "UNAUTHORIZED"%string), (db, g))) /\
  (forall flat_id now db,
     post_revoke_ban s flat_id now db
       = Some (Json 401 (Err "UNAUTHORIZED"%string), db)) /\
  (forall flat_id d now db,
     post_disable s flat_id d now db
       = Some (Json 401 (Err "UNAUTHORIZED"%string), db)).
Proof.
  intros Hs.
  unfold post_requests, post_approve, post_reject, post_setup_code, post_revoke_ban,
    post_disable, requireAdmin.
  rewrite Hs. by repeat split.
Qed.

End GuardProperties.

Lemma unauthenticated_requests_change_nothing_witness :
  post_disable (Some (mkSession (Some false))) "B12" (Some true) 300 db_B12
    = Some (Json 401 (Err "UNAUTHORIZED"%string), db_B12).
Proof.
  exact (proj2 (proj2 (proj2 (proj2 (proj2
    (unauthenticated_requests_change_nothing (fun code _ _ => code)
       (Some (mkSession (Some false))) eq_refl))))) "B12"%string (Some true) 300 db_B12).
Defined.



(** ** The snapshot proxy *)

Section ProxyFurther.

Context {JSNumber : Type}.
Context (number_is_zero : JSNumber -> bool) (Number_toString : JSNumber -> string).
Context (JSON_parse : string -> option (JSON JSNumber)).

(** A response that passes the test on the content type and whose body
    cannot be read or does not parse makes the call fail with the
    rejection of [res.json()], whatever the status: the message with the
    status is never made. *)
Theorem unparsable_body_rejects (res : Response) :
  content_type_includes_json res = true ->
  match res_body res with
  | Some body => JSON_parse body = None
  | None => True
  end ->
  fetchUserLiveSnapshot number_is_zero Number_toString JSON_parse res
    = (RejectedByJson, [ReadAsJSON]).
Proof.
  unfold content_type_includes_json, String_or_empty, fetchUserLiveSnapshot.
  intros Hct Hbody. rewrite Hct. cbn [negb].
  destruct (res_body res) as [body|]; [by rewrite Hbody|done].
Qed.


End ProxyFurther.

Lemma unparsable_body_rejects_witness :
  fetchUserLiveSnapshot (Z.eqb 0) decimal parse_sample
    (mkResponse 200 (Some "application/json"%string) (Some "<html>"%string))
    = (RejectedByJson, [ReadAsJSON]).
Proof.
  exact (unparsable_body_rejects (Z.eqb 0) decimal parse_sample
           (mkResponse 200 (Some "application/json"%string) (Some "<html>"%string))
           eq_refl eq_refl).
Defined.

(** ** The request-rate window *)

Lemma shift_while_older_twice (c1 c2 : Z) (ts : list Z) :
  c1 <= c2 ->
  shift_while_older c2 (shift_while_older c1 ts) = shift_while_older c2 ts.
Proof.
  intros Hc. induction ts as [|t ts IH]; simpl; [done|].
  destruct (Z.ltb_spec t c1) as [Hlt|Hge].
  - destruct (Z.ltb_spec t c2); [exact IH|lia].
  - done.
Qed.

(** Pruning twice is pruning at the later time: a read that follows
    another, with the clock not running backwards, finds the window the
    second alone would have left; and pruning again at the same time
    changes nothing. *)
Theorem pruneOldRequests_composes (t1 t2 : Z) (m : Metrics) :
  t1 <= t2 ->
  pruneOldRequests t2 (pruneOldRequests t1 m) = pruneOldRequests t2 m /\
  pruneOldRequests t1 (pruneOldRequests t1 m) = pruneOldRequests t1 m.
Proof.
  intros Ht. unfold pruneOldRequests. simpl.
  by rewrite !shift_while_older_twice by lia.
Qed.

Lemma pruneOldRequests_composes_witness :
  pruneOldRequests 70000 (pruneOldRequests 65000 (apply_ops ops_one_minute metrics0))
    = pruneOldRequests 70000 (apply_ops ops_one_minute metrics0).
Proof.
  exact (proj1 (pruneOldRequests_composes 65000 70000
                  (apply_ops ops_one_minute metrics0) ltac:(lia))).
Defined.

(** Counting a request records its time and its address and never loses
    it to the pruning that follows: the window ends with the request, the
    rate is at least 1, the total and the number in flight go up by one. *)
Theorem count_request_records (now : Z) (ip : string) (m : Metrics) :
  let m' := count_request now ip m in
  (exists before, requestTimestamps m' = before ++ [now]) /\
  ip ∈ uniqueIPs m' /\ uniqueIPs m ⊆ uniqueIPs m' /\
  totalRequests m' = totalRequests m + 1 /\
  inFlight m' = inFlight m + 1 /\
  startedAt m' = startedAt m.
Proof.
  intros m'. subst m'. unfold count_request, pruneOldRequests. simpl.
  split; [|by repeat split; set_solver].
  induction (requestTimestamps m) as [|t ts IH]; simpl.
  - destruct (Z.ltb_spec now (now - 60000)); [lia|]. by exists [].
  - destruct (t <? now - 60000); [exact IH|]. by exists (t :: ts).
Qed.

(** ** The WebSocket channel *)

Section MonitoringFurther.

Context {Host : Type}.

Implicit Types (sv : Server) (ev : Event Host).

(** An upgrade to any path but [/admin/ws...] is dropped without a word,
    admin session or not: the socket is destroyed, nothing is written and
    the server is as it was. *)
Theorem upgrade_elsewhere_is_dropped (req : UpgradeRequest) (s : nat) (now : Z)
    (h : Host) sv :
  match req_url req with
  | Some u => startsWith "/admin/ws" u = false
  | None => True
  end ->
  on_upgrade req s now h sv = ([SocketDestroy s], sv).
Proof.
  intros Hurl. unfold on_upgrade.
  destruct (req_url req) as [u|]; [by rewrite Hurl|done].
Qed.

(** An upgrade to [/admin/ws] with an admin session and a well-formed
    handshake is completed: the socket is open and a subscriber, after
    those there were, and it is sent one snapshot at once, taken at that
    moment with the window pruned, whose number of viewers counts the
    socket itself. *)
Theorem admin_upgrade_subscribes (req : UpgradeRequest) (s : nat) (now : Z)
    (h : Host) sv (u : string) :
  req_url req = Some u -> startsWith "/admin/ws" u = true ->
  session_isAdmin (req_session req) = true -> req_handshake_ok req = true ->
  let r := on_upgrade req s now h sv in
  exists snap,
    r.1 = [UpgradeCompleted s; WsSend s snap] /\
    s ∈ wsClients r.2 /\ readyState r.2 s = OPEN /\
    (forall x, x ∈ wsClients r.2 <-> x = s \/ x ∈ wsClients sv) /\
    (s ∉ wsClients sv -> wsClients r.2 = wsClients sv ++ [s]) /\
    ts snap = now /\ host snap = h /\
    viewers snap = Z.of_nat (length (wsClients r.2)) /\
    rpm snap = Z.of_nat (length (requestTimestamps (pruneOldRequests now (metrics sv)))).
Proof.
  intros Hurl Hpre Hadm Hok r. subst r. unfold on_upgrade.
  rewrite Hurl, Hpre, Hadm, Hok. cbn.
  eexists. split; [reflexivity|]. cbn.
  rewrite Nat.eqb_refl.
  split; [apply set_add_elem; by left|]. split; [done|].
  split; [intros x; apply set_add_elem|].
  unfold set_add. split; [|done]. intros Hout. by rewrite decide_False.
Qed.

(** The timer sends the snapshot of the moment to the subscribers whose
    socket is open and to no one else, and prunes the window as it takes
    the snapshot; with no subscriber it does nothing at all, not even
    prune the window. *)
Theorem tick_reaches_open_subscribers (now : Z) (h : Host) sv :
  (wsClients sv = [] -> on_tick now h sv = ([], sv)) /\
  (forall fx, In fx (on_tick now h sv).1 <->
     exists ws, fx = WsSend ws (buildSnapshot now h sv).1 /\
       ws ∈ wsClients sv /\ readyState sv ws = OPEN) /\
  wsClients (on_tick now h sv).2 = wsClients sv /\
  (wsClients sv <> [] ->
     metrics (on_tick now h sv).2 = pruneOldRequests now (metrics sv)).
Proof.
  unfold on_tick. split; [by intros ->|].
  destruct (Z.ltb_spec 0 (Z.of_nat (length (wsClients sv)))) as [Hpos|Hzero].
  - cbn [buildSnapshot fst snd wsClients metrics]. split; [|done].
    intros fx. unfold broadcast. cbn [wsClients readyState].
    rewrite in_map_iff. split.
    + intros (ws & <- & Hin). apply filter_In in Hin as [Hin Hopen].
      exists ws. split; [done|].
      split; [by apply list_elem_of_In|by apply bool_decide_eq_true in Hopen].
    + intros (ws & -> & Hin & Hopen). exists ws. split; [done|].
      apply filter_In. split; [by apply list_elem_of_In|by apply bool_decide_eq_true].
  - assert (Hnone : wsClients sv = []).
    { destruct (wsClients sv); [done|simpl in Hzero; lia]. }
    cbn [fst snd]. split; [|done].
    intros fx. split; [done|].
    intros (ws & _ & Hin & _). rewrite Hnone in Hin. by apply elem_of_nil in Hin.
Qed.




End MonitoringFurther.

Lemma upgrade_elsewhere_is_dropped_witness :
  on_upgrade (mkUpgrade (Some "/socket"%string) admin_session true) 4%nat 10 tt
    (mkServer metrics0 [] (fun _ => CONNECTING))
  = ([SocketDestroy 4%nat], mkServer metrics0 [] (fun _ => CONNECTING)).
Proof.
  exact (upgrade_elsewhere_is_dropped (mkUpgrade (Some "/socket"%string) admin_session true)
           4%nat 10 tt (mkServer metrics0 [] (fun _ => CONNECTING)) eq_refl).
Defined.

Lemma admin_upgrade_subscribes_witness :
  exists snap : Snapshot unit,
    (on_upgrade (mkUpgrade (Some "/admin/ws"%string) admin_session true) 4%nat 10 tt
       (mkServer metrics0 [7%nat] (fun _ => OPEN))).1
      = [UpgradeCompleted 4%nat; WsSend 4%nat snap] /\
    viewers snap = 2.
Proof.
  destruct (admin_upgrade_subscribes
              (mkUpgrade (Some "/admin/ws"%string) admin_session true) 4%nat 10 tt
              (mkServer metrics0 [7%nat] (fun _ => OPEN)) "/admin/ws"
              eq_refl eq_refl eq_refl eq_refl)
    as (snap & Hfx & _ & _ & _ & _ & _ & _ & Hv & _).
  exists snap. split; [exact Hfx|]. rewrite Hv. reflexivity.
Defined.

Lemma tick_reaches_open_subscribers_witness :
  on_tick 20 tt (mkServer (apply_ops ops_one_minute metrics0) [] (fun _ => OPEN))
    = ([], mkServer (apply_ops ops_one_minute metrics0) [] (fun _ => OPEN)).
Proof.
  exact (proj1 (tick_reaches_open_subscribers 20 tt
                  (mkServer (apply_ops ops_one_minute metrics0) [] (fun _ => OPEN)))
           eq_refl).
Defined.

